(** * The think-tool server

    A shallow embedding of [src/think_tool/server.py]: the session log of
    thought records kept by [ThinkToolServer] and its four tools, [think],
    [get_thoughts], [clear_thoughts] and [get_thought_stats].

    The first module gives the Python built-ins the server calls (string
    slicing and joining, decimal rendering of integers, binary64 floats with
    true division, [round(x, 2)], the [.2f] format, [sum], [max] over
    tuples, [enumerate]).  The second one is the server itself; the theorems
    follow. *)

From Stdlib Require Import ZArith List String Ascii Lia Bool.
From Stdlib Require Import DecimalString DecimalZ DecimalPos.
From Stdlib Require Import Floats.PrimFloat Floats.SpecFloat Floats.FloatOps.
From Stdlib Require Floats.FloatAxioms.
From stdpp Require Import base option list gmap strings.

Set Warnings "-inexact-float".

#[local] Open Scope Z_scope.

(** ** Python built-ins *)

Module Py.

(** *** Exceptions and the error monad

    The only built-ins of the server that can raise are the true division
    ([ZeroDivisionError]) and [max] of an empty iterable ([ValueError]). *)

Inductive exn : Type :=
  | ZeroDivisionError
  | ValueError.

Inductive result (A : Type) : Type :=
  | Ok (a : A)
  | Raise (e : exn).

Arguments Ok {A} a.
Arguments Raise {A} e.

#[export] Instance result_ret : MRet result := fun A a => Ok a.

#[export] Instance result_bind : MBind result := fun A B k m =>
  match m with
  | Ok a => k a
  | Raise e => Raise e
  end.

(** *** Strings

    A [str] is a [string]; one [ascii] stands for one character. *)

Definition nl : string := String "010"%char EmptyString.

(** [len(s)] *)
Definition len (s : string) : Z := Z.of_nat (String.length s).

(** [s[:n]] for a non-negative [n]: the first [n] characters, or all of [s]
    when it is shorter. *)
Fixpoint slice_to (n : nat) (s : string) : string :=
  match n, s with
  | S n', String c s' => String c (slice_to n' s')
  | _, _ => EmptyString
  end.

(** [sep.join(l)] *)
Fixpoint join (sep : string) (l : list string) : string :=
  match l with
  | [] => EmptyString
  | [x] => x
  | x :: l' => x +:+ sep +:+ join sep l'
  end.

(** [str(i)], which is also what [f"{i}"] renders. *)
Definition str_of_int (i : Z) : string := NilZero.string_of_int (Z.to_int i).

(** [int(s)] for a decimal numeral; [None] where Python raises. *)
Definition int_of_str (s : string) : option Z :=
  Z.of_int <$> NilZero.int_of_string s.

(** Truth value of a [str] and of a [list]: false exactly when empty. *)
Definition truthy_str (s : string) : bool :=
  match s with EmptyString => false | String _ _ => true end.

Definition truthy_list {A : Type} (l : list A) : bool :=
  match l with [] => false | _ :: _ => true end.

(** [needle in hay] *)
Fixpoint startswith (p s : string) : bool :=
  match p, s with
  | EmptyString, _ => true
  | String a p', String b s' => if Ascii.eqb a b then startswith p' s' else false
  | String _ _, EmptyString => false
  end.

Fixpoint contains (needle hay : string) : bool :=
  startswith needle hay ||
  match hay with
  | EmptyString => false
  | String _ hay' => contains needle hay'
  end.

(** [enumerate(l, start)] *)
Fixpoint enumerate {A : Type} (start : Z) (l : list A) : list (Z * A) :=
  match l with
  | [] => []
  | x :: l' => (start, x) :: enumerate (start + 1) l'
  end.

(** *** Tuples of two integers and [max]

    [tuple_gt a b] is [a > b] on pairs: the first components decide unless
    they are equal, then the second ones do.  [max] keeps its first item and
    replaces it by each later item that is strictly greater; on an empty
    iterable it raises [ValueError]. *)

Definition tuple_gt (a b : Z * Z) : bool :=
  if a.1 =? b.1 then a.2 >? b.2 else a.1 >? b.1.

Definition max_step (best item : Z * Z) : Z * Z :=
  if tuple_gt item best then item else best.

Definition max (l : list (Z * Z)) : result (Z * Z) :=
  match l with
  | [] => Raise ValueError
  | x :: l' => Ok (fold_left max_step l' x)
  end.

(** *** Floats

    A Python [float] is an IEEE 754 binary64 number, here a primitive
    [float].  Operations whose result is the correctly rounded value of an
    exact quantity go through [spec_float], where the mantissa and the
    exponent are integers. *)

(** The sign bit of an integer. *)
Definition sign_of (a : Z) : bool := a <? 0.

(** The binary64 number nearest to [a / b] (ties to even) for integers [a]
    and [b <> 0], as the true division of two [int]s and the conversion of a
    decimal give it.  (Python raises [OverflowError] when the quotient of
    two [int]s exceeds the binary64 range, which takes an operand above
    [2^1023]; no [len] is that large, and the quotient is infinite here.) *)
Definition nearest_quotient (a b : Z) : float :=
  SF2Prim
    match a with
    | 0 => S754_zero (sign_of b)
    | _ =>
      let '(q, e, l) := SFdiv_core_binary prec emax (Z.abs a) 0 (Z.abs b) 0 in
      binary_round_aux prec emax (xorb (sign_of a) (sign_of b)) q e l
    end.

(** [float(i)], the conversion an [int] operand of a float division gets.
    (It raises [OverflowError] beyond the binary64 range, which no length
    of a list reaches.) *)
Definition float_of_int (i : Z) : float := nearest_quotient i 1.

(** [m * 2^e * 100] rounded to an integer, ties to even: the digits that
    the correctly rounded conversion of a float to two decimals keeps. *)
Definition hundredths (m : positive) (e : Z) : Z :=
  match e with
  | Zneg p =>
    let n := Zpos m * 100 in
    let d := 2 ^ Zpos p in
    let q := n / d in
    match Z.compare (2 * (n mod d)) d with
    | Lt => q
    | Gt => q + 1
    | Eq => if Z.even q then q else q + 1
    end
  | _ => Zpos m * 100 * 2 ^ e
  end.

(** [round(x, 2)]: non-finite values and zeros round to themselves; a finite
    [x] goes to the float nearest to the two-decimal number nearest to it. *)
Definition round2 (x : float) : float :=
  match Prim2SF x with
  | S754_finite s m e =>
    let k := hundredths m e in
    if k =? 0 then SF2Prim (S754_zero s)
    else nearest_quotient (if s then - k else k) 100
  | _ => x
  end.

(** Two digits, zero padded. *)
Definition two_digits (n : Z) : string :=
  if n <? 10 then "0" +:+ str_of_int n else str_of_int n.

(** [f"{x:.2f}"] *)
Definition format_2f (x : float) : string :=
  match Prim2SF x with
  | S754_nan => "nan"
  | S754_infinity s => if s then "-inf" else "inf"
  | S754_zero s => if s then "-0.00" else "0.00"
  | S754_finite s m e =>
    let k := hundredths m e in
    (if s then "-" else "") +:+ str_of_int (k / 100) +:+ "." +:+ two_digits (k mod 100)
  end.

(** A number is an [int] or a [float]. *)
Inductive num : Type :=
  | Int (i : Z)
  | Float (x : float).

(** [x / n] for a number [x] and an [int] [n]: the quotient when [n] is
    not zero, and the whole operation, which raises when it is. *)
Definition quotient (x : num) (n : Z) : float :=
  match x with
  | Int i => nearest_quotient i n
  | Float f => (f / float_of_int n)%float
  end.

Definition truediv (x : num) (n : Z) : result num :=
  if n =? 0 then Raise ZeroDivisionError else Ok (Float (quotient x n)).

(** [round(x, 2)] on a number: an [int] is returned as it is. *)
Definition round_2 (x : num) : num :=
  match x with
  | Int i => Int i
  | Float f => Float (round2 f)
  end.

(** [sum(l)] for a list of floats, as CPython computes it from version 3.12
    on: the integer [0] when [l] is empty; else the first item is added to
    zero, and every further item [x] goes through the compensated step of
    Neumaier: the running total [cs_hi] becomes [t = cs_hi + x], and the
    rounding error of that addition, [(cs_hi - t) + x] or [(x - t) + cs_hi]
    according to which of the two is larger in magnitude, is added to the
    compensation [cs_lo].  At the end the compensation is added to the
    total, unless it is zero or not finite.  (Before 3.12 there is no
    compensation: the result is the running total alone.) *)
Record compensated : Type := {
  cs_hi : float;
  cs_lo : float
}.

Definition cs_add (total : compensated) (x : float) : compensated :=
  let t := (cs_hi total + x)%float in
  {| cs_hi := t;
     cs_lo :=
       if (abs x <=? abs (cs_hi total))%float
       then (cs_lo total + ((cs_hi total - t) + x))%float
       else (cs_lo total + ((x - t) + cs_hi total))%float |}.

Definition cs_to_double (total : compensated) : float :=
  if negb (cs_lo total =? 0)%float && is_finite (cs_lo total)
  then (cs_hi total + cs_lo total)%float
  else cs_hi total.

Definition sum_floats (l : list float) : num :=
  match l with
  | [] => Int 0
  | x :: l' =>
    Float (cs_to_double (fold_left cs_add l' {| cs_hi := 0 + x; cs_lo := 0 |}))
  end.

(** [sum(g)] for integers. *)
Definition sum_ints (l : list Z) : Z := fold_left Z.add l 0.

End Py.


(** ** The server *)

Import Py.

(** One entry of [thoughts_log].  The dictionary [thought_entry] of the
    source always has the keys ["timestamp"] and ["thought"]; each of the
    other four keys is either missing ([None] here) or holds a value. *)
Record thought_entry : Type := {
  timestamp : string;
  thought : string;
  pattern : option string;
  confidence : option float;
  alternatives : option (list string);
  justification : option string
}.

(** [thought_entry[key] = value] for the four optional keys. *)
Definition set_pattern (v : string) (d : thought_entry) : thought_entry :=
  {| timestamp := timestamp d; thought := thought d; pattern := Some v;
     confidence := confidence d; alternatives := alternatives d;
     justification := justification d |}.

Definition set_confidence (v : float) (d : thought_entry) : thought_entry :=
  {| timestamp := timestamp d; thought := thought d; pattern := pattern d;
     confidence := Some v; alternatives := alternatives d;
     justification := justification d |}.

Definition set_alternatives (v : list string) (d : thought_entry) : thought_entry :=
  {| timestamp := timestamp d; thought := thought d; pattern := pattern d;
     confidence := confidence d; alternatives := Some v;
     justification := justification d |}.

Definition set_justification (v : string) (d : thought_entry) : thought_entry :=
  {| timestamp := timestamp d; thought := thought d; pattern := pattern d;
     confidence := confidence d; alternatives := alternatives d;
     justification := Some v |}.

(** The state of a [ThinkToolServer]: the log and the zone label resolved
    once in [__init__]. *)
Record ThinkToolServer : Type := {
  thoughts_log : list thought_entry;
  timezone_name : string
}.

(** [__init__], given the zone label that [get_system_timezone] found. *)
Definition init (tz : string) : ThinkToolServer :=
  {| thoughts_log := []; timezone_name := tz |}.

Definition set_log (l : list thought_entry) (self : ThinkToolServer) : ThinkToolServer :=
  {| thoughts_log := l; timezone_name := timezone_name self |}.

(** [get_local_timestamp]; [now] is [datetime.datetime.now().isoformat()],
    read from the clock by the caller. *)
Definition get_local_timestamp (now : string) (self : ThinkToolServer) : string :=
  now +:+ " " +:+ timezone_name self.

(** The arguments of one call of [think]. *)
Record think_args : Type := {
  arg_thought : string;
  arg_pattern : option string;
  arg_confidence : option float;
  arg_alternatives : option (list string);
  arg_justification : option string
}.

(** The defaults of the signature: [thought = ""], the others [None]. *)
Definition no_args : think_args :=
  {| arg_thought := ""; arg_pattern := None; arg_confidence := None;
     arg_alternatives := None; arg_justification := None |}.

(** The entry [think] builds (lines 63 to 77). *)
Definition new_entry (now : string) (a : think_args) (self : ThinkToolServer)
  : thought_entry :=
  let timestamp := get_local_timestamp now self in
  let thought_entry :=
    {| timestamp := timestamp; thought := arg_thought a; pattern := None;
       confidence := None; alternatives := None; justification := None |} in
  let thought_entry :=
    match arg_pattern a with
    | Some p => set_pattern p thought_entry
    | None => thought_entry
    end in
  let thought_entry :=
    match arg_confidence a with
    | Some c => set_confidence c thought_entry
    | None => thought_entry
    end in
  let thought_entry :=
    match arg_alternatives a with
    | Some l => set_alternatives l thought_entry
    | None => thought_entry
    end in
  match arg_justification a with
  | Some j => set_justification j thought_entry
  | None => thought_entry
  end.

(** The confirmation [think] returns (lines 82 to 88).  [if pattern:] is the
    truth value of an optional string: false for [None] and for [""]. *)
Definition confirmation (a : think_args) : string :=
  let confirmation := "Thought recorded: " +:+ slice_to 100 (arg_thought a) +:+ "..." in
  let confirmation :=
    match arg_pattern a with
    | Some p =>
      if truthy_str p then confirmation +:+ " [Pattern: " +:+ p +:+ "]"
      else confirmation
    | None => confirmation
    end in
  match arg_confidence a with
  | Some c => confirmation +:+ " [Confidence: " +:+ format_2f c +:+ "]"
  | None => confirmation
  end.

(** [think]: the returned string and the server afterwards. *)
Definition think (now : string) (a : think_args) (self : ThinkToolServer)
  : string * ThinkToolServer :=
  let thought_entry := new_entry now a self in
  let self := set_log (thoughts_log self ++ [thought_entry]) self in
  (confirmation a, self).

(** The block [get_thoughts] renders for entry number [i] (lines 102 to
    124). *)
Definition format_thought (i : Z) (entry : thought_entry) : string :=
  let thought_str := "Thought #" +:+ str_of_int i +:+ " (" +:+ timestamp entry +:+ "):" in
  let metadata : list string := [] in
  let metadata :=
    match pattern entry with
    | Some p => metadata ++ ["Pattern: " +:+ p]
    | None => metadata
    end in
  let metadata :=
    match confidence entry with
    | Some c => metadata ++ ["Confidence: " +:+ format_2f c]
    | None => metadata
    end in
  let thought_str :=
    if truthy_list metadata
    then thought_str +:+ " [" +:+ join ", " metadata +:+ "]"
    else thought_str in
  let thought_str := thought_str +:+ nl +:+ thought entry in
  let thought_str :=
    match justification entry with
    | Some j => thought_str +:+ nl +:+ "Justification: " +:+ j
    | None => thought_str
    end in
  let thought_str :=
    match alternatives entry with
    | Some l =>
      if truthy_list l
      then thought_str +:+ nl +:+ "Alternatives considered: " +:+ join ", " l
      else thought_str
    | None => thought_str
    end in
  thought_str +:+ nl.

(** [get_thoughts] *)
Definition get_thoughts (self : ThinkToolServer) : string :=
  if negb (truthy_list (thoughts_log self))
  then "No thoughts have been recorded yet."
  else
    let formatted_thoughts :=
      map (fun ie => format_thought ie.1 ie.2) (enumerate 1 (thoughts_log self)) in
    join nl formatted_thoughts.

(** [clear_thoughts] *)
Definition clear_thoughts (self : ThinkToolServer) : string * ThinkToolServer :=
  let count := Z.of_nat (length (thoughts_log self)) in
  let self := set_log [] self in
  ("Cleared " +:+ str_of_int count +:+ " recorded thoughts.", self).

(** The variables of the loop of [get_thought_stats] (lines 150 to 153). *)
Module Loop.
Record vars : Type := {
  pattern_counts : gmap string Z;
  confidence_values : list float;
  thoughts_with_justification : Z;
  thoughts_with_alternatives : Z
}.

Definition start : vars :=
  {| pattern_counts := ∅; confidence_values := [];
     thoughts_with_justification := 0; thoughts_with_alternatives := 0 |}.

(** One round of the loop (lines 156 to 167). *)
Definition body (v : vars) (entry : thought_entry) : vars :=
  {| pattern_counts :=
       match pattern entry with
       | Some p => <[p := default 0 (pattern_counts v !! p) + 1]> (pattern_counts v)
       | None => pattern_counts v
       end;
     confidence_values :=
       match confidence entry with
       | Some c => confidence_values v ++ [c]
       | None => confidence_values v
       end;
     thoughts_with_justification :=
       match justification entry with
       | Some _ => thoughts_with_justification v + 1
       | None => thoughts_with_justification v
       end;
     thoughts_with_alternatives :=
       match alternatives entry with
       | Some l =>
         if truthy_list l then thoughts_with_alternatives v + 1
         else thoughts_with_alternatives v
       | None => thoughts_with_alternatives v
       end |}.

Definition run (log : list thought_entry) : vars := fold_left body log start.
End Loop.

(** The dictionary [stats] (lines 169 to 178); [None] is JSON's [null]. *)
Record stats : Type := {
  total_thoughts : Z;
  average_length : num;
  longest_thought_index : option Z;
  longest_thought_length : option Z;
  pattern_distribution : gmap string Z;
  average_confidence : option num;
  thoughts_with_justification : Z;
  thoughts_with_alternatives : Z
}.

(** What [get_thought_stats] returns: the fixed sentence for an empty log,
    or [json.dumps(stats, indent=2)], kept here as the dictionary that is
    serialised. *)
Inductive stats_output : Type :=
  | Sentence (s : string)
  | Json (d : stats).

(** [get_thought_stats] *)
Definition get_thought_stats (self : ThinkToolServer) : result stats_output :=
  if negb (truthy_list (thoughts_log self))
  then Ok (Sentence "No thoughts have been recorded yet.")
  else
    let total_thoughts := Z.of_nat (length (thoughts_log self)) in
    avg_length ←
      (if negb (total_thoughts =? 0)
       then truediv (Int (sum_ints (map (fun entry => len (thought entry))
                                        (thoughts_log self))))
                    total_thoughts
       else Ok (Int 0));
    longest_thought ←
      (if truthy_list (thoughts_log self)
       then Py.max (map (fun ie => (len (thought ie.2), ie.1))
                        (enumerate 0 (thoughts_log self)))
       else Ok (0, -1));
    let v := Loop.run (thoughts_log self) in
    average_confidence ←
      (if truthy_list (Loop.confidence_values v)
       then
         mean ← truediv (sum_floats (Loop.confidence_values v))
                        (Z.of_nat (length (Loop.confidence_values v)));
         Ok (Some (round_2 mean))
       else Ok None);
    Ok (Json
      {| total_thoughts := total_thoughts;
         average_length := round_2 avg_length;
         longest_thought_index :=
           if longest_thought.2 >=? 0 then Some (longest_thought.2 + 1) else None;
         longest_thought_length :=
           if longest_thought.1 >? 0 then Some longest_thought.1 else None;
         pattern_distribution := Loop.pattern_counts v;
         average_confidence := average_confidence;
         thoughts_with_justification := Loop.thoughts_with_justification v;
         thoughts_with_alternatives := Loop.thoughts_with_alternatives v |}).

(** *** Sessions

    A session is a sequence of tool calls on one server.  [step] performs a
    call and gives the server afterwards; [run] does so for a sequence. *)

Inductive call : Type :=
  | Think (now : string) (a : think_args)
  | GetThoughts
  | ClearThoughts
  | GetThoughtStats.

Definition step (self : ThinkToolServer) (c : call) : ThinkToolServer :=
  match c with
  | Think now a => (think now a self).2
  | ClearThoughts => (clear_thoughts self).2
  | GetThoughts | GetThoughtStats => self
  end.

Definition run (self : ThinkToolServer) (cs : list call) : ThinkToolServer :=
  fold_left step cs self.

(** The number of [think] calls of [cs] after its last [clear_thoughts],
    counting on from [n]. *)
Definition thinks_since_clear (n : nat) (cs : list call) : nat :=
  fold_left (fun k c =>
    match c with
    | Think _ _ => S k
    | ClearThoughts => O
    | GetThoughts | GetThoughtStats => k
    end) cs n.


(** ** Vocabulary of the statements *)

(** The order on pairs that [tuple_gt] is the strict part of. *)
Definition lex_le (a b : Z * Z) : Prop :=
  a.1 < b.1 \/ (a.1 = b.1 /\ a.2 <= b.2).

(** The pair [get_thought_stats] hands to [max] for the entry at position
    [i] (counted from 0). *)
Definition score (i : nat) (entry : thought_entry) : Z * Z :=
  (len (thought entry), Z.of_nat i).

(** Calls that only read the log. *)
Definition reads_only (c : call) : bool :=
  match c with
  | GetThoughts | GetThoughtStats => true
  | Think _ _ | ClearThoughts => false
  end.

Definition is_clear (c : call) : bool :=
  match c with
  | ClearThoughts => true
  | _ => false
  end.

(** Decimal digits, and numerals with exactly two decimal places: an
    optional minus sign, at least one digit, a point, two digits. *)
Definition digit (c : ascii) : bool :=
  let n := nat_of_ascii c in (48 <=? n)%nat && (n <=? 57)%nat.

Fixpoint digits (s : string) : bool :=
  match s with
  | EmptyString => true
  | String c s' => digit c && digits s'
  end.

Definition two_decimals (s : string) : Prop :=
  exists (sign whole : string) (d1 d2 : ascii),
    s = sign +:+ whole +:+ "." +:+ String d1 (String d2 "") /\
    (sign = "" \/ sign = "-") /\
    whole <> "" /\ digits whole = true /\
    digit d1 = true /\ digit d2 = true.

(** [two_digits] gives two digits. *)
Definition two_digits_ok (r : Z) : bool :=
  match two_digits r with
  | String d1 (String d2 EmptyString) => digit d1 && digit d2
  | _ => false
  end.

(** Finite floats: neither a NaN nor an infinity. *)
Definition finite (x : float) : bool :=
  match Prim2SF x with
  | S754_zero _ | S754_finite _ _ _ => true
  | S754_nan | S754_infinity _ => false
  end.

(** *** Sample calls and sessions *)

(** [think(thought=t)] *)
Definition just (t : string) : think_args :=
  {| arg_thought := t; arg_pattern := arg_pattern no_args;
     arg_confidence := arg_confidence no_args;
     arg_alternatives := arg_alternatives no_args;
     arg_justification := arg_justification no_args |}.

(** [think(thought="Consider edge cases", pattern="critical", confidence=0.8)] *)
Definition edge_cases : think_args :=
  {| arg_thought := "Consider edge cases"; arg_pattern := Some "critical";
     arg_confidence := Some 0.8%float; arg_alternatives := None;
     arg_justification := None |}.

(** [think(thought="x", pattern="")] *)
Definition empty_pattern : think_args :=
  {| arg_thought := "x"; arg_pattern := Some ""; arg_confidence := None;
     arg_alternatives := None; arg_justification := None |}.

(** Two thoughts of five characters each, one after the other. *)
Definition two_fives : ThinkToolServer :=
  run (init "UTC") [Think "2025-01-01T10:00:00" (just "alpha");
                    Think "2025-01-01T10:00:01" (just "omega")].

(** Three thoughts, the first and the last with a confidence. *)
Definition three_thoughts : ThinkToolServer :=
  run (init "UTC")
    [Think "2025-01-01T10:00:00" edge_cases;
     Think "2025-01-01T10:00:01" (just "");
     Think "2025-01-01T10:00:02"
       {| arg_thought := "Done"; arg_pattern := Some "analytical";
          arg_confidence := Some 0.5%float; arg_alternatives := Some [];
          arg_justification := Some "checked" |}].

(** Counting the entries of a log that pass a test. *)
Definition count_entries (test : thought_entry -> bool) (log : list thought_entry) : Z :=
  Z.of_nat (length (List.filter test log)).

Definition has_pattern (p : string) (entry : thought_entry) : bool :=
  bool_decide (pattern entry = Some p).

Definition has_justification (entry : thought_entry) : bool :=
  match justification entry with Some _ => true | None => false end.

Definition has_alternatives (entry : thought_entry) : bool :=
  match alternatives entry with Some (_ :: _) => true | _ => false end.

(** Three thoughts with the patterns ["a"], ["b"] and ["a"]. *)
Definition with_pattern (p : string) : think_args :=
  {| arg_thought := "step"; arg_pattern := Some p; arg_confidence := None;
     arg_alternatives := None; arg_justification := None |}.

Definition a_b_a : ThinkToolServer :=
  run (init "UTC") [Think "2025-01-01T10:00:00" (with_pattern "a");
                    Think "2025-01-01T10:00:01" (with_pattern "b");
                    Think "2025-01-01T10:00:02" (with_pattern "a")].

(** The dictionary of an answer of [get_thought_stats], when it is one. *)
Definition dict_of (r : result stats_output) : option stats :=
  match r with
  | Ok (Json d) => Some d
  | _ => None
  end.

(** ** Start-up

    What [get_system_timezone] reads from the process: the environment
    variable [TZ] ([None] when it is not set), the pair [time.tzname] and
    the integer [time.daylight]. *)
Record environment : Type := {
  TZ : option string;
  tzname : string * string;
  daylight : Z
}.

(** [t[i]] for a tuple [t] of two items: positions 0 and 1, or -2 and -1
    from the end; [None] where Python raises [IndexError]. *)
Definition tuple_item (t : string * string) (i : Z) : option string :=
  if (i =? 0) || (i =? -2) then Some t.1
  else if (i =? 1) || (i =? -1) then Some t.2
  else None.

(** [get_system_timezone] (lines 27 to 33); [if tz_env:] is false for a
    variable that is not set and for one set to the empty string. *)
Definition get_system_timezone (env : environment) : option string :=
  let tz_env := TZ env in
  match tz_env with
  | Some z => if truthy_str z then Some z else tuple_item (tzname env) (daylight env)
  | None => tuple_item (tzname env) (daylight env)
  end.

(** [__init__] (lines 16 to 19): an empty log and the zone label found in
    the environment.  The transport object and the registration of the
    tools are not part of the state. *)
Definition start_server (env : environment) : option ThinkToolServer :=
  timezone_name ← get_system_timezone env;
  Some {| thoughts_log := []; timezone_name := timezone_name |}.

(** ** Further vocabulary *)

(** An entry stamped in the zone [tz]: its timestamp is a local time, a
    space and the zone label, as [get_local_timestamp] builds it. *)
Definition stamped (tz : string) (entry : thought_entry) : Prop :=
  exists now : string, timestamp entry = now +:+ " " +:+ tz.

(** The entry with a list of alternatives that is empty taken away. *)
Definition without_empty_alternatives (entry : thought_entry) : thought_entry :=
  {| timestamp := timestamp entry; thought := thought entry;
     pattern := pattern entry; confidence := confidence entry;
     alternatives :=
       match alternatives entry with
       | Some [] => None
       | other => other
       end;
     justification := justification entry |}.

Definition has_some_pattern (entry : thought_entry) : bool :=
  match pattern entry with Some _ => true | None => false end.

(** The sum of the counts of a dictionary of counts. *)
Definition sum_of_counts (m : gmap string Z) : Z :=
  map_fold (fun _ n total => n + total) 0 m.

(** The first line of the block of entry number [i]. *)
Definition header (i : Z) (entry : thought_entry) : string :=
  "Thought #" +:+ str_of_int i +:+ " (" +:+ timestamp entry +:+ "):".

(** *** More sample values *)

Definition tokyo : environment :=
  {| TZ := Some "Asia/Tokyo"; tzname := ("PST", "PDT"); daylight := 7 |}.

Definition empty_TZ : environment :=
  {| TZ := Some ""; tzname := ("CET", "CEST"); daylight := 1 |}.

(** An entry whose thought is the sentence of the empty log. *)
Definition looks_empty : ThinkToolServer :=
  run (init "UTC")
    [Think "2025-01-01T10:00:00" (just "No thoughts have been recorded yet.")].

(** ** Exact arithmetic

    What the floats of the statistics are worth, stated in integers. *)

(** [M] is the integer nearest to the fraction [num / den], where
    [0 < den]; when the fraction lies half way between two integers, [M] is
    the even one. *)
Definition nearest_even (num den M : Z) : Prop :=
  2 * Z.abs (M * den - num) <= den /\
  (2 * Z.abs (M * den - num) = den -> Z.even M = true).

(** [x] is the binary64 number of sign [s] whose magnitude is nearest to
    the fraction [num / den] (for [0 < num], [0 < den] and a quotient in
    the normal range): with [E] the exponent for which the fraction has 53
    bits before the point, [2^52 <= num / den / 2^E], and [M] the integer
    nearest to [num / den / 2^E], ties to even, the magnitude of [x] is
    [M * 2^E].  The mantissa [m] and the exponent [e] of [x] are [M] and
    [E], or [2^52] and [E + 1] when the rounding reached [2^53]. *)
Definition nearest_binary64 (s : bool) (num den : Z) (x : float) : Prop :=
  exists (M E : Z) (m : positive) (e : Z),
    2 ^ 52 * (den * 2 ^ Z.max E 0) <= num * 2 ^ Z.max (- E) 0 /\
    2 ^ 52 <= M <= 2 ^ 53 /\
    nearest_even (num * 2 ^ Z.max (- E) 0) (den * 2 ^ Z.max E 0) M /\
    E <= e /\ Z.pos m * 2 ^ (e - E) = M /\
    Prim2SF x = S754_finite s m e.

(** [r] is [x] rounded to two decimals: a finite [x] worth [m * 2^e] gives
    the integer [k] nearest to [100 * m * 2^e], ties to even, and [r] is the
    binary64 number nearest to [k / 100], with the sign of [x] (a zero of
    that sign when [k] is 0); a zero, an infinity and a NaN are left as
    they are. *)
Definition rounded_to_2_decimals (x r : float) : Prop :=
  match Prim2SF x with
  | S754_finite s m e =>
    exists k : Z,
      nearest_even (100 * Z.pos m * 2 ^ Z.max e 0) (2 ^ Z.max (- e) 0) k /\
      if k =? 0 then Prim2SF r = S754_zero s else nearest_binary64 s k 100 r
  | _ => r = x
  end.

(** The sizes Python allows on a 64-bit machine ([sys.maxsize]): fewer than
    [2^63] entries in a list and characters in a string. *)
Definition within_limits (log : list thought_entry) : Prop :=
  Z.of_nat (length log) < 2 ^ 63 /\
  Forall (fun entry => len (thought entry) < 2 ^ 63) log.

(** The place of a fraction [N / D] between the integers [m] and [m + 1],
    as a [location] tells it: on [m], below, at or above the middle. *)
Definition located (N D m : Z) (l : location) : Prop :=
  match l with
  | loc_Exact => N = m * D
  | loc_Inexact Lt => m * D < N /\ 2 * N < (2 * m + 1) * D
  | loc_Inexact Eq => 2 * N = (2 * m + 1) * D
  | loc_Inexact Gt => (2 * m + 1) * D < 2 * N /\ N < (m + 1) * D
  end.

(** *** Sample sessions for the averages *)

(** [think(thought="step", confidence=c)] *)
Definition confident (c : float) : think_args :=
  {| arg_thought := "step"; arg_pattern := None; arg_confidence := Some c;
     arg_alternatives := None; arg_justification := None |}.

Definition session_of (calls : list think_args) : ThinkToolServer :=
  run (init "UTC") (map (Think "2025-01-01T10:00:00") calls).

(** Three thoughts of one character among two hundred. *)
Definition three_in_two_hundred : ThinkToolServer :=
  session_of (replicate 3 (just "a") ++ replicate 197 (just "")).

(** The confidences 0.25 and [2^-60]. *)
Definition quarter_and_a_bit : ThinkToolServer :=
  session_of [confident 0.25; confident 0x1p-60].

(** The confidences 0.04, 0.01, 0.0 and 0.01. *)
Definition four_small : ThinkToolServer :=
  session_of [confident 0.04; confident 0.01; confident 0; confident 0.01].

(** The confidences [1e16], 1.0 and [-1e16]. *)
Definition cancelling : ThinkToolServer :=
  session_of [confident 1e16; confident 1; confident (-1e16)].

(** ** Facts about the built-ins *)

Section Strings.

Lemma append_cons (c : ascii) (s t : string) :
  String c s +:+ t = String c (s +:+ t).
Proof. reflexivity. Qed.

Lemma append_nil_l (s : string) : "" +:+ s = s.
Proof. reflexivity. Qed.

Lemma append_nil_r (s : string) : s +:+ "" = s.
Proof.
  induction s as [|c s IH]; [done|]. by rewrite append_cons, IH.
Qed.

Lemma append_assoc (s t u : string) : (s +:+ t) +:+ u = s +:+ t +:+ u.
Proof.
  induction s as [|c s IH]; [done|]. by rewrite !append_cons, IH.
Qed.

Lemma startswith_app (p s : string) : startswith p (p +:+ s) = true.
Proof.
  induction p as [|c p IH]; [done|].
  rewrite append_cons. simpl. by rewrite Ascii.eqb_refl.
Qed.

Lemma startswith_inv (p s : string) :
  startswith p s = true -> exists suf, s = p +:+ suf.
Proof.
  revert s; induction p as [|a p IH]; intros s H.
  - by exists s.
  - destruct s as [|b s]; simpl in H; [done|].
    destruct (Ascii.eqb_spec a b) as [->|]; [|done].
    destruct (IH _ H) as [suf ->]. by exists suf.
Qed.

(** [contains] decides whether the needle occurs in the haystack. *)
Lemma contains_intro (pre needle suf : string) :
  contains needle (pre +:+ needle +:+ suf) = true.
Proof.
  induction pre as [|c pre IH].
  - rewrite append_nil_l.
    destruct (needle +:+ suf) eqn:E; simpl; rewrite <- E, startswith_app; done.
  - rewrite append_cons. simpl. rewrite IH. apply orb_true_r.
Qed.

Lemma contains_suffix (pre needle : string) :
  contains needle (pre +:+ needle) = true.
Proof.
  rewrite <- (append_nil_r needle) at 2. apply contains_intro.
Qed.

Lemma contains_inv (needle hay : string) :
  contains needle hay = true ->
  exists pre suf, hay = pre +:+ needle +:+ suf.
Proof.
  induction hay as [|c hay IH]; simpl; intros H.
  - rewrite orb_false_r in H. apply startswith_inv in H as [suf ->].
    by exists "", suf.
  - apply orb_true_iff in H as [H|H].
    + apply startswith_inv in H as [suf ->]. by exists "", suf.
    + destruct (IH H) as (pre & suf & ->). by exists (String c pre), suf.
Qed.

Lemma slice_to_all (n : nat) (s : string) :
  (String.length s <= n)%nat -> slice_to n s = s.
Proof.
  revert n; induction s as [|c s IH]; intros [|n] H; simpl in *; try done; try lia.
  rewrite IH; [done | lia].
Qed.

Lemma slice_to_length (n : nat) (s : string) :
  String.length (slice_to n s) = Nat.min n (String.length s).
Proof.
  revert n; induction s as [|c s IH]; intros [|n]; simpl; try done.
  by rewrite IH.
Qed.

Lemma slice_to_prefix (n : nat) (s : string) :
  exists rest, s = slice_to n s +:+ rest.
Proof.
  revert n; induction s as [|c s IH]; intros [|n]; simpl; eauto.
  destruct (IH n) as [rest E]. exists rest. by rewrite append_cons, <- E.
Qed.

(** The decimal numeral of an integer reads back as that integer. *)
Lemma int_of_str_of_int (i : Z) : int_of_str (str_of_int i) = Some i.
Proof.
  unfold int_of_str, str_of_int.
  rewrite NilZero.isi.
  - simpl. by rewrite DecimalZ.of_to.
  - destruct i as [|p|p]; simpl; try done.
    intros [= E]. by apply (DecimalPos.Unsigned.to_uint_nonnil p).
  - destruct i as [|p|p]; simpl; try done.
    intros [= E]. by apply (DecimalPos.Unsigned.to_uint_nonnil p).
Qed.

End Strings.

Section Max.

Lemma lex_le_refl (a : Z * Z) : lex_le a a.
Proof. right. lia. Qed.

Lemma lex_le_trans (a b c : Z * Z) : lex_le a b -> lex_le b c -> lex_le a c.
Proof. unfold lex_le. lia. Qed.

(** [max_step] returns one of its two arguments, above both. *)
Lemma max_step_upper (best item : Z * Z) :
  (max_step best item = best \/ max_step best item = item) /\
  lex_le best (max_step best item) /\ lex_le item (max_step best item).
Proof.
  unfold max_step, tuple_gt, lex_le.
  destruct (Z.eqb_spec item.1 best.1) as [E|E];
    [destruct (Z.gtb_spec item.2 best.2) | destruct (Z.gtb_spec item.1 best.1)];
    (split; [auto|]); lia.
Qed.

Lemma fold_max_step_upper (l : list (Z * Z)) (x : Z * Z) :
  let b := fold_left max_step l x in
  (b = x \/ b ∈ l) /\ lex_le x b /\ forall y, y ∈ l -> lex_le y b.
Proof.
  revert x; induction l as [|z l IH]; intros x; simpl.
  - split; [by left|]. split; [apply lex_le_refl|]. intros y Hy. inversion Hy.
  - destruct (IH (max_step x z)) as (Hin & Hx & Hall).
    destruct (max_step_upper x z) as (Hcase & Hxz & Hzz).
    split; [|split].
    + destruct Hin as [->|Hin]; [|right; by right].
      destruct Hcase as [->| ->]; [by left | right; by left].
    + eapply lex_le_trans; eauto.
    + intros y Hy. apply elem_of_cons in Hy as [->|Hy]; [|by apply Hall].
      eapply lex_le_trans; eauto.
Qed.

(** The item [max] returns is in the list and above every item. *)
Lemma max_upper (l : list (Z * Z)) (b : Z * Z) :
  Py.max l = Ok b -> b ∈ l /\ forall y, y ∈ l -> lex_le y b.
Proof.
  destruct l as [|x l]; simpl; [done|]. intros [= <-].
  destruct (fold_max_step_upper l x) as (Hin & Hx & Hall). split.
  - destruct Hin as [->|Hin]; [by left | by right].
  - intros y Hy. apply elem_of_cons in Hy as [->|Hy]; auto.
Qed.

Lemma max_nonempty (l : list (Z * Z)) :
  l <> [] -> exists b, Py.max l = Ok b.
Proof. destruct l; [done|]. simpl. eauto. Qed.

End Max.

Section Enumerate.
Context {A : Type}.

Lemma enumerate_lookup (l : list A) (start : Z) (i : nat) :
  enumerate start l !! i = (fun x => (start + Z.of_nat i, x)) <$> l !! i.
Proof.
  revert start i; induction l as [|x l IH]; intros start [|i]; simpl; try done.
  - by rewrite Z.add_0_r.
  - rewrite IH. destruct (l !! i); simpl; [|done]. do 2 f_equal. lia.
Qed.

Lemma enumerate_length (l : list A) (start : Z) :
  length (enumerate start l) = length l.
Proof. revert start; induction l; intros; simpl; auto. Qed.

End Enumerate.

(** The pairs that [get_thought_stats] builds for [max] are the scores of
    the entries, position by position. *)
Lemma scores_lookup (log : list thought_entry) (i : nat) :
  map (fun ie : Z * thought_entry => (len (thought ie.2), ie.1)) (enumerate 0 log) !! i
  = score i <$> log !! i.
Proof.
  rewrite list_lookup_fmap, enumerate_lookup.
  by destruct (log !! i).
Qed.

Lemma scores_elem (log : list thought_entry) (b : Z * Z) :
  b ∈ map (fun ie : Z * thought_entry => (len (thought ie.2), ie.1)) (enumerate 0 log) ->
  exists i entry, log !! i = Some entry /\ b = score i entry.
Proof.
  intros Hb. apply list_elem_of_lookup in Hb as [i Hi].
  rewrite scores_lookup in Hi.
  destruct (log !! i) as [entry|] eqn:E; simpl in Hi; [|done].
  injection Hi as <-. eauto.
Qed.

Section LoopFacts.

(** The loop collects the supplied confidence values in log order. *)
Lemma loop_confidence_values_from (log : list thought_entry) (v : Loop.vars) :
  Loop.confidence_values (fold_left Loop.body log v)
  = Loop.confidence_values v ++ omap confidence log.
Proof.
  revert v; induction log as [|entry log IH]; intros v; simpl.
  - by rewrite app_nil_r.
  - rewrite IH. simpl. destruct (confidence entry); simpl; [|done].
    by rewrite <- app_assoc.
Qed.

Lemma loop_confidence_values (log : list thought_entry) :
  Loop.confidence_values (Loop.run log) = omap confidence log.
Proof. apply loop_confidence_values_from. Qed.

Lemma count_entries_cons (test : thought_entry -> bool) entry log :
  count_entries test (entry :: log)
  = (if test entry then 1 else 0) + count_entries test log.
Proof.
  unfold count_entries. simpl. destruct (test entry); simpl; lia.
Qed.

Lemma count_entries_nonneg (test : thought_entry -> bool) log :
  0 <= count_entries test log.
Proof. unfold count_entries. lia. Qed.

(** The two counters count the entries with a justification and those with
    a list of alternatives that is not empty. *)
Lemma loop_counters_from (log : list thought_entry) (v : Loop.vars) :
  Loop.thoughts_with_justification (fold_left Loop.body log v)
  = Loop.thoughts_with_justification v + count_entries has_justification log /\
  Loop.thoughts_with_alternatives (fold_left Loop.body log v)
  = Loop.thoughts_with_alternatives v + count_entries has_alternatives log.
Proof.
  revert v; induction log as [|entry log IH]; intros v.
  - unfold count_entries; simpl. lia.
  - simpl fold_left. destruct (IH (Loop.body v entry)) as [-> ->].
    rewrite !count_entries_cons. unfold has_justification, has_alternatives. simpl.
    destruct (justification entry), (alternatives entry) as [[|? ?]|]; simpl; lia.
Qed.

(** [pattern_counts] maps a pattern to what it held for it before, plus the
    number of entries that bear it; a pattern no entry bears is left as it
    was. *)
Lemma loop_pattern_counts_from (log : list thought_entry) (v : Loop.vars) (p : string) :
  Loop.pattern_counts (fold_left Loop.body log v) !! p
  = if count_entries (has_pattern p) log =? 0 then Loop.pattern_counts v !! p
    else Some (default 0 (Loop.pattern_counts v !! p) + count_entries (has_pattern p) log).
Proof.
  revert v; induction log as [|entry log IH]; intros v; [done|].
  simpl fold_left. rewrite IH, count_entries_cons.
  pose proof (count_entries_nonneg (has_pattern p) log) as Hc.
  assert (Hhas : has_pattern p entry = bool_decide (pattern entry = Some p)) by done.
  rewrite Hhas. clear Hhas. simpl Loop.pattern_counts.
  destruct (pattern entry) as [q|] eqn:Hq.
  - destruct (decide (q = p)) as [->|Hne].
    + rewrite bool_decide_eq_true_2 by done. rewrite lookup_insert_eq. simpl.
      destruct (Z.eqb_spec (count_entries (has_pattern p) log) 0) as [->|];
        destruct (Z.eqb_spec (1 + count_entries (has_pattern p) log) 0);
        try lia; f_equal; lia.
    + rewrite bool_decide_eq_false_2 by congruence.
      rewrite lookup_insert_ne by done. done.
  - rewrite bool_decide_eq_false_2 by done. done.
Qed.

End LoopFacts.

Section Division.

Lemma truediv_nonzero (x : num) (n : Z) :
  n <> 0 -> truediv x n = Ok (Float (quotient x n)).
Proof. intros H. unfold truediv. by destruct (Z.eqb_spec n 0). Qed.

Lemma truediv_zero (x : num) : truediv x 0 = Raise ZeroDivisionError.
Proof. reflexivity. Qed.

End Division.

(** [get_thought_stats] on a log that is not empty: no branch raises, and
    the dictionary is made of the quotient of the lengths, the item [max]
    found and the variables of the loop. *)
Lemma get_thought_stats_nonempty (self : ThinkToolServer) :
  thoughts_log self <> [] ->
  exists best,
    Py.max (map (fun ie : Z * thought_entry => (len (thought ie.2), ie.1))
                (enumerate 0 (thoughts_log self))) = Ok best /\
    get_thought_stats self = Ok (Json
      {| total_thoughts := Z.of_nat (length (thoughts_log self));
         average_length :=
           Float (round2 (quotient
             (Int (sum_ints (map (fun entry => len (thought entry)) (thoughts_log self))))
             (Z.of_nat (length (thoughts_log self)))));
         longest_thought_index := if best.2 >=? 0 then Some (best.2 + 1) else None;
         longest_thought_length := if best.1 >? 0 then Some best.1 else None;
         pattern_distribution := Loop.pattern_counts (Loop.run (thoughts_log self));
         average_confidence :=
           match omap confidence (thoughts_log self) with
           | [] => None
           | c :: cs =>
             Some (Float (round2 (quotient (sum_floats (c :: cs))
                                           (Z.of_nat (length (c :: cs))))))
           end;
         thoughts_with_justification :=
           Loop.thoughts_with_justification (Loop.run (thoughts_log self));
         thoughts_with_alternatives :=
           Loop.thoughts_with_alternatives (Loop.run (thoughts_log self)) |}).
Proof.
  intros Hne. destruct self as [log tz]; simpl in *.
  destruct (max_nonempty
    (map (fun ie : Z * thought_entry => (len (thought ie.2), ie.1)) (enumerate 0 log)))
    as [best Hbest].
  { destruct log; [done|]. simpl. done. }
  exists best. split; [done|].
  unfold get_thought_stats; simpl thoughts_log.
  destruct log as [|entry log]; [done|].
  change (truthy_list (entry :: log)) with true. cbv beta iota delta [negb].
  assert (Hn : Z.of_nat (length (entry :: log)) <> 0) by (simpl; lia).
  destruct (Z.eqb_spec (Z.of_nat (length (entry :: log))) 0) as [|_]; [done|].
  cbv beta iota delta [negb].
  rewrite (truediv_nonzero _ _ Hn), Hbest, loop_confidence_values.
  destruct (omap confidence (entry :: log)) as [|c cs] eqn:Hcs.
  - reflexivity.
  - change (truthy_list (c :: cs)) with true. cbv iota.
    rewrite truediv_nonzero by (simpl; lia). reflexivity.
Qed.

(** ** Correctly rounded quotients

    The quotient of two integers that [nearest_quotient] computes with the
    division and the rounding of [SpecFloat] is the binary64 number nearest
    to the exact quotient. *)

Section Rounding.

Lemma digits2_pos_bounds (p : positive) :
  2 ^ (Z.pos (digits2_pos p) - 1) <= Z.pos p < 2 ^ Z.pos (digits2_pos p).
Proof.
  induction p as [p IH|p IH|]; simpl digits2_pos.
  - rewrite Pos2Z.inj_succ, (Pos2Z.inj_xI p).
    replace (Z.succ (Z.pos (digits2_pos p)) - 1) with (Z.succ (Z.pos (digits2_pos p) - 1)) by lia.
    rewrite !Z.pow_succ_r by lia. lia.
  - rewrite Pos2Z.inj_succ, (Pos2Z.inj_xO p).
    replace (Z.succ (Z.pos (digits2_pos p)) - 1) with (Z.succ (Z.pos (digits2_pos p) - 1)) by lia.
    rewrite !Z.pow_succ_r by lia. lia.
  - simpl. lia.
Qed.

Lemma Zdigits2_bounds (m : Z) :
  0 < m -> 2 ^ (Zdigits2 m - 1) <= m < 2 ^ Zdigits2 m.
Proof. destruct m as [|p|p]; try lia. intros _. apply digits2_pos_bounds. Qed.

Lemma Zdigits2_pos (m : Z) : 0 < m -> 0 < Zdigits2 m.
Proof. destruct m; simpl; lia. Qed.

Lemma Zdigits2_unique (m d : Z) :
  2 ^ (d - 1) <= m < 2 ^ d -> 0 < m -> Zdigits2 m = d.
Proof.
  intros Hd Hm. pose proof (Zdigits2_bounds m Hm) as Hb.
  pose proof (Zdigits2_pos m Hm) as Hp.
  assert (0 < d).
  { destruct (Z.ltb_spec 0 d); [done|].
    destruct (Z.eq_dec d 0) as [->|]; [simpl in Hd; lia|].
    rewrite (Z.pow_neg_r 2 d) in Hd by lia. lia. }
  destruct (Z.lt_trichotomy (Zdigits2 m) d) as [Hlt|[Heq|Hgt]]; [|done|].
  - assert (2 ^ Zdigits2 m <= 2 ^ (d - 1)) by (apply Z.pow_le_mono_r; lia). lia.
  - assert (2 ^ d <= 2 ^ (Zdigits2 m - 1)) by (apply Z.pow_le_mono_r; lia). lia.
Qed.

Lemma located_bounds N D m l : 0 < D -> located N D m l -> m * D <= N < (m + 1) * D.
Proof. destruct l as [|[]]; simpl; intros; lia. Qed.

Lemma shr_1_located (N D : Z) (mrs : shr_record) :
  0 < D -> 0 <= shr_m mrs ->
  located N D (shr_m mrs) (loc_of_shr_record mrs) ->
  located N (2 * D) (shr_m (shr_1 mrs)) (loc_of_shr_record (shr_1 mrs)) /\
  0 <= shr_m (shr_1 mrs) /\
  shr_m (shr_1 mrs) = shr_m mrs / 2.
Proof.
  destruct mrs as [m r s]. simpl shr_m. intros HD Hm.
  assert (Hdiv : forall p, Z.pos p~0 / 2 = Z.pos p /\ Z.pos p~1 / 2 = Z.pos p).
  { intros p. split.
    - rewrite (Pos2Z.inj_xO p). rewrite Z.mul_comm. apply Z.div_mul. lia.
    - rewrite (Pos2Z.inj_xI p). symmetry. apply Z.div_unique with 1; lia. }
  destruct m as [|[p|p|]|p]; try lia;
    destruct r, s; simpl; intros H;
    rewrite ?(Pos2Z.inj_xO p), ?(Pos2Z.inj_xI p) in H;
    (split; [lia | split; [lia | try reflexivity; try (symmetry; apply Hdiv)]]).
Qed.

Lemma iter_shr_1_located (p : positive) :
  forall (N D : Z) (mrs : shr_record),
  0 < D -> 0 <= shr_m mrs ->
  located N D (shr_m mrs) (loc_of_shr_record mrs) ->
  located N (2 ^ Z.pos p * D) (shr_m (SpecFloat.iter_pos shr_1 p mrs))
          (loc_of_shr_record (SpecFloat.iter_pos shr_1 p mrs)) /\
  0 <= shr_m (SpecFloat.iter_pos shr_1 p mrs) /\
  shr_m (SpecFloat.iter_pos shr_1 p mrs) = shr_m mrs / 2 ^ Z.pos p.
Proof.
  induction p as [p IH|p IH|]; intros N D mrs HD Hm Hloc; simpl SpecFloat.iter_pos.
  - destruct (shr_1_located N D mrs HD Hm Hloc) as (H1 & H1m & H1d).
    destruct (IH N (2 * D) _ ltac:(lia) H1m H1) as (H2 & H2m & H2d).
    assert (Hp : 0 < 2 ^ Z.pos p) by (apply Z.pow_pos_nonneg; lia).
    destruct (IH N (2 ^ Z.pos p * (2 * D)) _ ltac:(lia) H2m H2) as (H3 & H3m & H3d).
    assert (Hpow : 2 ^ Z.pos p~1 = 2 ^ Z.pos p * (2 ^ Z.pos p * 2)).
    { rewrite (Pos2Z.inj_xI p). rewrite Z.pow_add_r, Z.pow_mul_r by lia.
      change (2 ^ 2) with 4. rewrite Z.pow_1_r.
      replace 4 with (2 * 2) by lia. rewrite Z.pow_mul_l. lia. }
    rewrite Hpow. split; [|split; [done|]].
    + replace (2 ^ Z.pos p * (2 ^ Z.pos p * 2) * D)
        with (2 ^ Z.pos p * (2 ^ Z.pos p * (2 * D))) by lia. exact H3.
    + rewrite H3d, H2d, H1d.
      rewrite !Z.div_div by lia. f_equal. lia.
  - destruct (IH N D _ HD Hm Hloc) as (H2 & H2m & H2d).
    assert (Hp : 0 < 2 ^ Z.pos p) by (apply Z.pow_pos_nonneg; lia).
    destruct (IH N (2 ^ Z.pos p * D) _ ltac:(lia) H2m H2) as (H3 & H3m & H3d).
    assert (Hpow : 2 ^ Z.pos p~0 = 2 ^ Z.pos p * 2 ^ Z.pos p).
    { rewrite (Pos2Z.inj_xO p). rewrite Z.pow_mul_r by lia.
      change (2 ^ 2) with 4. replace 4 with (2 * 2) by lia. rewrite Z.pow_mul_l. lia. }
    rewrite Hpow. split; [|split; [done|]].
    + replace (2 ^ Z.pos p * 2 ^ Z.pos p * D)
        with (2 ^ Z.pos p * (2 ^ Z.pos p * D)) by lia. exact H3.
    + rewrite H3d, H2d. rewrite Z.div_div by lia. done.
  - destruct (shr_1_located N D mrs HD Hm Hloc) as (H1 & H1m & H1d).
    change (2 ^ 1) with 2. done.
Qed.

Lemma round_nearest_even_spec (N D m : Z) (l : location) :
  0 < D -> located N D m l ->
  (round_nearest_even m l = m \/ round_nearest_even m l = m + 1) /\
  nearest_even N D (round_nearest_even m l).
Proof.
  intros HD Hloc. unfold nearest_even.
  destruct l as [|[]]; simpl in *.
  - split; [by left|]. subst N. split; [lia|]. intros H. lia.
  - destruct (Z.even m) eqn:Hev.
    + split; [by left|]. split; [lia|done].
    + split; [by right|]. split; [lia|]. intros _.
      rewrite Z.even_add. rewrite Hev. done.
  - split; [by left|]. split; lia.
  - split; [by right|]. split; lia.
Qed.

Lemma fexp_normal (e : Z) : -1021 <= e -> fexp prec emax e = e - 53.
Proof. intros H. unfold fexp, emin, prec, emax. lia. Qed.

Lemma shr_record_of_loc_m (m : Z) (l : location) : shr_m (shr_record_of_loc m l) = m.
Proof. by destruct l as [|[]]. Qed.

Lemma loc_of_shr_record_of_loc (m : Z) (l : location) :
  loc_of_shr_record (shr_record_of_loc m l) = l.
Proof. by destruct l as [|[]]. Qed.

Lemma shr_fexp_normal (N D m e : Z) (l : location) :
  0 < D -> 0 < m -> located N D m l ->
  53 <= Zdigits2 m -> -1021 <= Zdigits2 m + e ->
  exists mrs,
    shr_fexp prec emax m e l = (mrs, e + (Zdigits2 m - 53)) /\
    located N (2 ^ (Zdigits2 m - 53) * D) (shr_m mrs) (loc_of_shr_record mrs) /\
    2 ^ 52 <= shr_m mrs < 2 ^ 53.
Proof.
  intros HD Hm Hloc Hd He.
  pose proof (Zdigits2_bounds m Hm) as Hb.
  unfold shr_fexp. rewrite fexp_normal by done.
  replace (Zdigits2 m + e - 53 - e) with (Zdigits2 m - 53) by lia.
  destruct (Zdigits2 m - 53) as [|p|p] eqn:Hn; [| |lia].
  - exists (shr_record_of_loc m l). cbn [shr].
    rewrite shr_record_of_loc_m, loc_of_shr_record_of_loc.
    split; [by rewrite Z.add_0_r|]. split.
    + change (2 ^ 0) with 1. by rewrite Z.mul_1_l.
    + replace (Zdigits2 m) with 53 in Hb by lia. exact Hb.
  - exists (SpecFloat.iter_pos shr_1 p (shr_record_of_loc m l)). cbn [shr].
    split; [done|].
    destruct (iter_shr_1_located p N D (shr_record_of_loc m l)) as (H1 & H2 & H3).
    + done.
    + rewrite shr_record_of_loc_m. lia.
    + by rewrite shr_record_of_loc_m, loc_of_shr_record_of_loc.
    + split; [done|]. rewrite H3, shr_record_of_loc_m.
      assert (Hp : 0 < 2 ^ Z.pos p) by (apply Z.pow_pos_nonneg; lia).
      replace (Zdigits2 m) with (53 + Z.pos p) in Hb by lia.
      replace (53 + Z.pos p - 1) with (52 + Z.pos p) in Hb by lia.
      rewrite !Z.pow_add_r in Hb by lia.
      split.
      * apply Z.div_le_lower_bound; lia.
      * apply Z.div_lt_upper_bound; lia.
Qed.

Lemma binary_round_aux_normal (sx : bool) (N D mx ex : Z) (lx : location) :
  0 < D -> 0 < mx -> located N D mx lx ->
  53 <= Zdigits2 mx -> -1021 <= Zdigits2 mx + ex -> Zdigits2 mx + ex <= 1023 ->
  exists (M : Z) (m : positive) (e : Z),
    binary_round_aux prec emax sx mx ex lx = S754_finite sx m e /\
    SpecFloat.valid_binary prec emax (S754_finite sx m e) = true /\
    2 ^ 52 <= M <= 2 ^ 53 /\
    2 ^ 52 * (2 ^ (Zdigits2 mx - 53) * D) <= N /\
    nearest_even N (2 ^ (Zdigits2 mx - 53) * D) M /\
    ((Z.pos m = M /\ e = ex + (Zdigits2 mx - 53)) \/
     (M = 2 ^ 53 /\ Z.pos m = 2 ^ 52 /\ e = ex + (Zdigits2 mx - 53) + 1)).
Proof.
  intros HD Hm Hloc Hd Hlo Hhi.
  destruct (shr_fexp_normal N D mx ex lx HD Hm Hloc Hd Hlo) as (mrs & Hshr & Hloc' & Hm').
  set (n := Zdigits2 mx - 53) in *.
  assert (Hpn : 0 < 2 ^ n) by (apply Z.pow_pos_nonneg; lia).
  assert (HD' : 0 < 2 ^ n * D) by lia.
  destruct (round_nearest_even_spec N (2 ^ n * D) _ _ HD' Hloc') as (Hcase & Hnear).
  set (M := round_nearest_even (shr_m mrs) (loc_of_shr_record mrs)) in *.
  pose proof (located_bounds _ _ _ _ HD' Hloc') as Hbound.
  assert (HM : 2 ^ 52 <= M <= 2 ^ 53) by lia.
  unfold binary_round_aux. rewrite Hshr. fold M.
  destruct (Z.eq_dec M (2 ^ 53)) as [HeqM|HneM].
  - (* the rounding carried into the next binade *)
    exists M, (4503599627370496)%positive, (ex + n + 1).
    rewrite HeqM.
    assert (Hsecond : shr_fexp prec emax (2 ^ 53) (ex + n) loc_Exact
                      = ({| shr_m := 2 ^ 52; shr_r := false; shr_s := false |}, ex + n + 1)).
    { unfold shr_fexp. change (Zdigits2 (2 ^ 53)) with 54.
      rewrite fexp_normal by lia.
      replace (54 + (ex + n) - 53 - (ex + n)) with 1 by lia. reflexivity. }
    rewrite Hsecond. cbn [shr_m]. change (2 ^ 52) with (Z.pos 4503599627370496).
    cbv iota beta.
    destruct (Z.leb_spec (ex + n + 1) (emax - prec)) as [_|Hbad];
      [|unfold emax, prec in Hbad; lia].
    split; [done|]. split.
    { unfold SpecFloat.valid_binary, bounded, canonical_mantissa.
      change (Z.pos (digits2_pos 4503599627370496)) with 53.
      rewrite fexp_normal by lia.
      apply andb_true_iff. split; [apply Z.eqb_eq; lia | apply Z.leb_le; unfold emax, prec; lia]. }
    split; [lia|]. split; [nia|]. split; [by rewrite <- HeqM|].
    right. done.
  - (* the rounded mantissa has 53 bits *)
    assert (HMd : Zdigits2 M = 53) by (apply Zdigits2_unique; simpl; lia).
    destruct M as [|m|m] eqn:HMeq; try lia.
    exists (Z.pos m), m, (ex + n).
    assert (Hsecond : shr_fexp prec emax (Z.pos m) (ex + n) loc_Exact
                      = ({| shr_m := Z.pos m; shr_r := false; shr_s := false |}, ex + n)).
    { unfold shr_fexp. rewrite HMd. rewrite fexp_normal by lia.
      replace (53 + (ex + n) - 53 - (ex + n)) with 0 by lia. reflexivity. }
    rewrite Hsecond. cbn [shr_m]. cbv iota beta.
    destruct (Z.leb_spec (ex + n) (emax - prec)) as [_|Hbad];
      [|unfold emax, prec in Hbad; lia].
    split; [done|]. split.
    { unfold SpecFloat.valid_binary, bounded, canonical_mantissa.
      change (Z.pos (digits2_pos m)) with (Zdigits2 (Z.pos m)). rewrite HMd.
      rewrite fexp_normal by lia.
      apply andb_true_iff. split; [apply Z.eqb_eq; lia | apply Z.leb_le; unfold emax, prec; lia]. }
    split; [lia|]. split; [nia|]. split; [done|].
    left. done.
Qed.

Lemma new_location_located (b q r N : Z) :
  0 < b -> 0 <= r < b -> N = q * b + r -> located N b q (new_location b r).
Proof.
  intros Hb Hr ->. unfold new_location, new_location_even, new_location_odd.
  pose proof (Zmod_odd b) as Hodd. rewrite <- Z.negb_even in Hodd.
  destruct (Z.even b); simpl in Hodd.
  - destruct (Z.eqb_spec r 0) as [->|Hr0]; simpl; [lia|].
    destruct (Z.compare_spec (2 * r) b); simpl; lia.
  - destruct (Z.eqb_spec r 0) as [->|Hr0]; simpl; [lia|].
    pose proof (Z.div_mod b 2 ltac:(lia)) as Hdm.
    set (h := b / 2) in *.
    destruct (Z.compare_spec (2 * r + 1) b); simpl; lia.
Qed.

Lemma SFdiv_core_binary_located (m1 e1 m2 e2 : Z) :
  0 < m1 -> 0 < m2 ->
  -1021 <= Zdigits2 m1 + e1 - (Zdigits2 m2 + e2) ->
  exists (q e s : Z) (l : location),
    SFdiv_core_binary prec emax m1 e1 m2 e2 = (q, e, l) /\
    0 <= s /\ e = e1 - e2 - s /\
    0 < q /\ located (m1 * 2 ^ s) m2 q l /\
    53 <= Zdigits2 q /\
    Zdigits2 m1 + e1 - (Zdigits2 m2 + e2) <= Zdigits2 q + e
      <= Zdigits2 m1 + e1 - (Zdigits2 m2 + e2) + 1.
Proof.
  intros H1 H2 Hrange.
  pose proof (Zdigits2_bounds m1 H1) as Hb1.
  pose proof (Zdigits2_bounds m2 H2) as Hb2.
  pose proof (Zdigits2_pos m1 H1) as Hp1.
  pose proof (Zdigits2_pos m2 H2) as Hp2.
  unfold SFdiv_core_binary.
  rewrite fexp_normal by lia.
  set (d1 := Zdigits2 m1) in *. set (d2 := Zdigits2 m2) in *.
  set (e := Z.min (d1 + e1 - (d2 + e2) - 53) (e1 - e2)).
  set (s := e1 - e2 - e).
  assert (Hs : 0 <= s) by lia.
  assert (Hm' : match s with
                | 0 => m1
                | Z.pos _ => Z.shiftl m1 s
                | Z.neg _ => 0
                end = m1 * 2 ^ s).
  { destruct s as [|p|p] eqn:Hsp; [simpl; lia | | lia].
    by rewrite Z.shiftl_mul_pow2. }
  rewrite Hm'.
  pose proof (Z.div_eucl_eq (m1 * 2 ^ s) m2 ltac:(lia)) as Heucl.
  pose proof (Z.mod_pos_bound (m1 * 2 ^ s) m2 H2) as Hmod.
  unfold Z.modulo in Hmod.
  destruct (Z.div_eucl (m1 * 2 ^ s) m2) as [q r] eqn:Hqr.
  set (g := d1 + s - d2).
  assert (Hg : 53 <= g) by (unfold g; lia).
  assert (Hps : 0 < 2 ^ s) by (apply Z.pow_pos_nonneg; lia).
  assert (Hlow : 2 ^ (g - 1) <= q).
  { assert (E1 : 2 ^ (g - 1) * 2 ^ d2 = 2 ^ (d1 - 1) * 2 ^ s).
    { rewrite <- !Z.pow_add_r by lia. f_equal. unfold g. lia. }
    assert (0 < 2 ^ (g - 1)) by (apply Z.pow_pos_nonneg; lia).
    nia. }
  assert (Hup : q < 2 ^ (g + 1)).
  { assert (E1 : 2 ^ (g + 1) * 2 ^ (d2 - 1) = 2 ^ d1 * 2 ^ s).
    { rewrite <- !Z.pow_add_r by lia. f_equal. unfold g. lia. }
    assert (0 < 2 ^ (g + 1)) by (apply Z.pow_pos_nonneg; lia).
    nia. }
  assert (Hq : 0 < q).
  { assert (0 < 2 ^ (g - 1)) by (apply Z.pow_pos_nonneg; lia). lia. }
  assert (Hdq : Zdigits2 q = g \/ Zdigits2 q = g + 1).
  { destruct (Z.lt_ge_cases q (2 ^ g)).
    - left. apply Zdigits2_unique; [lia|done].
    - right. apply Zdigits2_unique; [|done].
      replace (g + 1 - 1) with g by lia. lia. }
  exists q, e, s, (new_location m2 r).
  split; [done|]. split; [done|]. split; [unfold s; lia|]. split; [done|].
  split; [apply new_location_located; lia|].
  split; [lia|]. unfold g, s in *. lia.
Qed.

Lemma nearest_even_scale (c num den M : Z) :
  0 < c -> nearest_even (c * num) (c * den) M -> nearest_even num den M.
Proof.
  unfold nearest_even. intros Hc [H1 H2].
  replace (M * (c * den) - c * num) with (c * (M * den - num)) in * by lia.
  rewrite Z.abs_mul, (Z.abs_eq c) in * by lia.
  split; [nia|]. intros Heq. apply H2. nia.
Qed.

Lemma Zdigits2_le (m k : Z) : 0 < m -> 0 <= k -> m < 2 ^ k -> Zdigits2 m <= k.
Proof.
  intros Hm Hk Hlt. pose proof (Zdigits2_bounds m Hm) as Hb.
  pose proof (Zdigits2_pos m Hm).
  destruct (Z.le_gt_cases (Zdigits2 m) k); [done|].
  assert (2 ^ k <= 2 ^ (Zdigits2 m - 1)) by (apply Z.pow_le_mono_r; lia). lia.
Qed.

Lemma nearest_quotient_spec (a b : Z) :
  a <> 0 -> b <> 0 -> Z.abs a < 2 ^ 1000 -> Z.abs b < 2 ^ 1000 ->
  nearest_binary64 (xorb (sign_of a) (sign_of b)) (Z.abs a) (Z.abs b) (nearest_quotient a b).
Proof.
  intros Ha Hb Hamax Hbmax.
  assert (Ha' : 0 < Z.abs a) by lia. assert (Hb' : 0 < Z.abs b) by lia.
  pose proof (Zdigits2_le _ 1000 Ha' ltac:(lia) Hamax) as Hda.
  pose proof (Zdigits2_le _ 1000 Hb' ltac:(lia) Hbmax) as Hdb.
  pose proof (Zdigits2_pos _ Ha') as Hpa. pose proof (Zdigits2_pos _ Hb') as Hpb.
  destruct (SFdiv_core_binary_located (Z.abs a) 0 (Z.abs b) 0 Ha' Hb' ltac:(lia))
    as (q & e & s & l & Hcore & Hs & He & Hq & Hloc & Hdq & Hrange).
  destruct (binary_round_aux_normal (xorb (sign_of a) (sign_of b))
              (Z.abs a * 2 ^ s) (Z.abs b) q e l Hb' Hq Hloc Hdq ltac:(lia) ltac:(lia))
    as (M & m & e' & Hround & Hvalid & HM & Hbinade & Hnear & Hrep).
  set (n := Zdigits2 q - 53) in *.
  assert (Hn : 0 <= n) by (unfold n; lia).
  exists M, (n - s), m, e'.
  assert (Hpn : 0 < 2 ^ n) by (apply Z.pow_pos_nonneg; lia).
  assert (Hps : 0 < 2 ^ s) by (apply Z.pow_pos_nonneg; lia).
  assert (Hscale : exists c, 0 < c /\
            2 ^ s = c * 2 ^ Z.max (- (n - s)) 0 /\ 2 ^ n = c * 2 ^ Z.max (n - s) 0).
  { destruct (Z.le_ge_cases s n).
    - exists (2 ^ s). split; [done|].
      replace (Z.max (- (n - s)) 0) with 0 by lia.
      replace (Z.max (n - s) 0) with (n - s) by lia.
      split; [change (2 ^ 0) with 1; lia|].
      rewrite <- Z.pow_add_r by lia. f_equal; lia.
    - exists (2 ^ n). split; [done|].
      replace (Z.max (- (n - s)) 0) with (s - n) by lia.
      replace (Z.max (n - s) 0) with 0 by lia.
      split; [|change (2 ^ 0) with 1; lia].
      rewrite <- Z.pow_add_r by lia. f_equal; lia. }
  destruct Hscale as (c & Hc & Hcs & Hcn).
  set (u := 2 ^ Z.max (- (n - s)) 0) in *. set (v := 2 ^ Z.max (n - s) 0) in *.
  split; [rewrite Hcs, Hcn in Hbinade; nia|].
  split; [done|]. split.
  { apply (nearest_even_scale c); [done|].
    replace (c * (Z.abs a * u)) with (Z.abs a * 2 ^ s) by (rewrite Hcs; lia).
    replace (c * (Z.abs b * v)) with (2 ^ n * Z.abs b) by (rewrite Hcn; lia).
    done. }
  assert (Hres : Prim2SF (nearest_quotient a b)
                 = S754_finite (xorb (sign_of a) (sign_of b)) m e').
  { unfold nearest_quotient. destruct a as [|pa|pa]; [done| |];
      rewrite Hcore, Hround; by apply FloatAxioms.Prim2SF_SF2Prim. }
  destruct Hrep as [[Hm He']|(HM53 & Hm & He')].
  - split; [lia|]. split; [|done].
    replace (e' - (n - s)) with 0 by lia. lia.
  - split; [lia|]. split; [|done].
    replace (e' - (n - s)) with 1 by lia. rewrite Hm, HM53. reflexivity.
Qed.

(** Two fractions of equal value have the same nearest integers. *)
Lemma nearest_even_ratio (num1 den1 num2 den2 M : Z) :
  0 < den1 -> 0 < den2 -> num1 * den2 = num2 * den1 ->
  nearest_even num1 den1 M -> nearest_even num2 den2 M.
Proof.
  unfold nearest_even. intros H1 H2 Heq [Hle Htie].
  assert (Hcross : den2 * Z.abs (M * den1 - num1) = den1 * Z.abs (M * den2 - num2)).
  { rewrite <- (Z.abs_eq den2) at 1 by lia. rewrite <- (Z.abs_eq den1) at 2 by lia.
    rewrite <- !Z.abs_mul. f_equal. lia. }
  split; [nia|]. intros Hhalf. apply Htie. nia.
Qed.

Lemma le_ratio (c num1 den1 num2 den2 : Z) :
  0 < den1 -> 0 < den2 -> num1 * den2 = num2 * den1 ->
  c * den1 <= num1 -> c * den2 <= num2.
Proof. intros H1 H2 Heq Hle. nia. Qed.

Lemma Zdigits2_shift (m k : Z) : 0 < m -> 0 <= k -> Zdigits2 (m * 2 ^ k) = Zdigits2 m + k.
Proof.
  intros Hm Hk. pose proof (Zdigits2_bounds m Hm) as Hb.
  pose proof (Zdigits2_pos m Hm) as Hp.
  assert (Hpk : 0 < 2 ^ k) by (apply Z.pow_pos_nonneg; lia).
  apply Zdigits2_unique; [|lia].
  replace (Zdigits2 m + k - 1) with (Zdigits2 m - 1 + k) by lia.
  rewrite !Z.pow_add_r by lia. nia.
Qed.

Lemma Zdigits2_mono (a b : Z) : 0 < a -> a <= b -> Zdigits2 a <= Zdigits2 b.
Proof.
  intros Ha Hab. pose proof (Zdigits2_bounds b ltac:(lia)) as Hb.
  pose proof (Zdigits2_pos b ltac:(lia)).
  apply Zdigits2_le; lia.
Qed.

(** A quotient that has 53 bits is not rounded. *)
Lemma binary_round_aux_exact (sx : bool) (N D mx ex : Z) (lx : location) (m : positive) :
  0 < D -> 0 < mx -> located N D mx lx ->
  53 <= Zdigits2 mx -> -1021 <= Zdigits2 mx + ex -> Zdigits2 mx + ex <= 1024 ->
  2 ^ 52 <= Z.pos m < 2 ^ 53 ->
  N = Z.pos m * (2 ^ (Zdigits2 mx - 53) * D) ->
  binary_round_aux prec emax sx mx ex lx = S754_finite sx m (ex + (Zdigits2 mx - 53)).
Proof.
  intros HD Hm Hloc Hd Hlo Hhi Hm53 HN.
  destruct (shr_fexp_normal N D mx ex lx HD Hm Hloc Hd Hlo) as (mrs & Hshr & Hloc' & Hm').
  set (n := Zdigits2 mx - 53) in *.
  assert (Hpn : 0 < 2 ^ n) by (apply Z.pow_pos_nonneg; lia).
  assert (HD' : 0 < 2 ^ n * D) by lia.
  pose proof (located_bounds _ _ _ _ HD' Hloc') as Hbound.
  set (D' := 2 ^ n * D) in *.
  assert (Hmrs : shr_m mrs = Z.pos m) by nia.
  assert (Hexact : loc_of_shr_record mrs = loc_Exact).
  { rewrite Hmrs in Hloc'. destruct (loc_of_shr_record mrs) as [|[]]; [done| | |];
      simpl in Hloc'; lia. }
  unfold binary_round_aux. rewrite Hshr, Hexact, Hmrs.
  change (round_nearest_even (Z.pos m) loc_Exact) with (Z.pos m).
  assert (HMd : Zdigits2 (Z.pos m) = 53) by (apply Zdigits2_unique; simpl; lia).
  assert (Hsecond : shr_fexp prec emax (Z.pos m) (ex + n) loc_Exact
                    = ({| shr_m := Z.pos m; shr_r := false; shr_s := false |}, ex + n)).
  { unfold shr_fexp. rewrite HMd. rewrite fexp_normal by lia.
    replace (53 + (ex + n) - 53 - (ex + n)) with 0 by lia. reflexivity. }
  rewrite Hsecond. cbn [shr_m]. cbv iota beta.
  destruct (Z.leb_spec (ex + n) (emax - prec)) as [_|Hbad];
    [done | unfold emax, prec in Hbad; lia].
Qed.

(** The quotient of [b * (m * 2^e)] by [b] is the float [m * 2^e]. *)
Lemma nearest_quotient_exact (s : bool) (m : positive) (e b : Z) :
  2 ^ 52 <= Z.pos m < 2 ^ 53 -> 0 <= e <= 971 -> 0 < b ->
  Prim2SF (nearest_quotient ((if s then -1 else 1) * (Z.pos m * b * 2 ^ e)) b)
  = S754_finite s m e.
Proof.
  intros Hm He Hb.
  assert (Hpe : 0 < 2 ^ e) by (apply Z.pow_pos_nonneg; lia).
  set (k := Z.pos m * b * 2 ^ e).
  assert (Hk : 0 < k) by (unfold k; nia).
  set (a := (if s then -1 else 1) * k).
  assert (Habs : Z.abs a = k) by (unfold a; destruct s; lia).
  assert (Hsign : xorb (sign_of a) (sign_of b) = s).
  { unfold sign_of, a. destruct s.
    - destruct (Z.ltb_spec (-1 * k) 0); [|lia]. destruct (Z.ltb_spec b 0); [lia|done].
    - destruct (Z.ltb_spec (1 * k) 0); [lia|]. destruct (Z.ltb_spec b 0); [lia|done]. }
  assert (Hbk : b <= k).
  { assert (H1 : 1 <= Z.pos m * 2 ^ e) by nia.
    assert (Hmul : b * 1 <= b * (Z.pos m * 2 ^ e)) by (apply Z.mul_le_mono_nonneg_l; lia).
    unfold k. lia. }
  pose proof (Zdigits2_mono b k Hb Hbk) as Hdd.
  destruct (SFdiv_core_binary_located k 0 b 0 Hk Hb ltac:(lia))
    as (q & e' & sh & l & Hcore & Hs & He' & Hq & Hloc & Hdq & Hrange).
  assert (Hps : 0 < 2 ^ sh) by (apply Z.pow_pos_nonneg; lia).
  pose proof (located_bounds _ _ _ _ Hb Hloc) as Hbound.
  assert (Hqv : q = Z.pos m * 2 ^ (e + sh)).
  { rewrite Z.pow_add_r by lia.
    assert (Hkb : k * 2 ^ sh = Z.pos m * (2 ^ e * 2 ^ sh) * b) by (unfold k; lia).
    rewrite Hkb in Hbound. destruct Hbound as [Hlo Hhi].
    apply Z.mul_le_mono_pos_r in Hlo; [|done].
    apply Z.mul_lt_mono_pos_r in Hhi; [|done]. lia. }
  assert (Hqd : Zdigits2 q = 53 + (e + sh)).
  { rewrite Hqv, Zdigits2_shift by lia. f_equal.
    apply Zdigits2_unique; simpl; lia. }
  assert (Hround : binary_round_aux prec emax s q e' l = S754_finite s m e).
  { rewrite (binary_round_aux_exact s (k * 2 ^ sh) b q e' l m); try done; try lia.
    - f_equal. lia.
    - rewrite Hqd. replace (53 + (e + sh) - 53) with (e + sh) by lia.
      rewrite Z.pow_add_r by lia. unfold k. lia. }
  assert (Hvalid : SpecFloat.valid_binary prec emax (S754_finite s m e) = true).
  { unfold SpecFloat.valid_binary, bounded, canonical_mantissa.
    change (Z.pos (digits2_pos m)) with (Zdigits2 (Z.pos m)).
    replace (Zdigits2 (Z.pos m)) with 53 by (symmetry; apply Zdigits2_unique; simpl; lia).
    rewrite fexp_normal by lia.
    apply andb_true_iff. split; [apply Z.eqb_eq; lia | apply Z.leb_le; unfold emax, prec; lia]. }
  unfold nearest_quotient. fold a.
  rewrite (Z.abs_eq b), Habs, Hcore, Hsign, Hround by lia.
  destruct a as [|pa|pa]; [lia| |]; by apply FloatAxioms.Prim2SF_SF2Prim.
Qed.

(** The quotient of two floats, when it is neither tiny nor huge, is the
    binary64 number nearest to the exact quotient of their values. *)
Lemma float_div_nearest (x y : float) (sx sy : bool) (mx my : positive) (ex ey : Z) :
  Prim2SF x = S754_finite sx mx ex -> Prim2SF y = S754_finite sy my ey ->
  -1021 <= Zdigits2 (Z.pos mx) + ex - (Zdigits2 (Z.pos my) + ey) <= 1022 ->
  nearest_binary64 (xorb sx sy)
    (Z.pos mx * 2 ^ Z.max (ex - ey) 0) (Z.pos my * 2 ^ Z.max (ey - ex) 0) (x / y).
Proof.
  intros Hx Hy Hrange.
  pose proof (FloatAxioms.div_spec x y) as Hdiv.
  rewrite Hx, Hy in Hdiv. unfold FloatAxioms.SF64div, SFdiv in Hdiv.
  destruct (SFdiv_core_binary_located (Z.pos mx) ex (Z.pos my) ey ltac:(lia) ltac:(lia) ltac:(lia))
    as (q & e & s & l & Hcore & Hs & He & Hq & Hloc & Hdq & Hqrange).
  rewrite Hcore in Hdiv.
  destruct (binary_round_aux_normal (xorb sx sy)
              (Z.pos mx * 2 ^ s) (Z.pos my) q e l ltac:(lia) Hq Hloc Hdq ltac:(lia) ltac:(lia))
    as (M & m & e' & Hround & Hvalid & HM & Hbinade & Hnear & Hrep).
  rewrite Hround in Hdiv.
  set (n := Zdigits2 q - 53) in *.
  assert (Hn : 0 <= n) by (unfold n; lia).
  assert (Hpn : 0 < 2 ^ n) by (apply Z.pow_pos_nonneg; lia).
  assert (Hps : 0 < 2 ^ s) by (apply Z.pow_pos_nonneg; lia).
  set (E := e + n).
  set (a := Z.max (ex - ey) 0). set (a' := Z.max (ey - ex) 0).
  set (u := Z.max (- E) 0). set (v := Z.max E 0).
  assert (Hpa : 0 < 2 ^ a) by (apply Z.pow_pos_nonneg; lia).
  assert (Hpa' : 0 < 2 ^ a') by (apply Z.pow_pos_nonneg; lia).
  assert (Hpu : 0 < 2 ^ u) by (apply Z.pow_pos_nonneg; lia).
  assert (Hpv : 0 < 2 ^ v) by (apply Z.pow_pos_nonneg; lia).
  assert (Hpow : 2 ^ s * (2 ^ a' * 2 ^ v) = 2 ^ a * 2 ^ u * 2 ^ n).
  { rewrite <- !Z.pow_add_r by lia. f_equal. unfold a, a', u, v, E. lia. }
  assert (Hcross : Z.pos mx * 2 ^ s * (Z.pos my * 2 ^ a' * 2 ^ v)
                   = Z.pos mx * 2 ^ a * 2 ^ u * (2 ^ n * Z.pos my)) by nia.
  exists M, E, m, e'.
  split.
  { apply (le_ratio (2 ^ 52) (Z.pos mx * 2 ^ s) (2 ^ n * Z.pos my)); [nia|nia|exact Hcross|done]. }
  split; [done|]. split.
  { apply (nearest_even_ratio (Z.pos mx * 2 ^ s) (2 ^ n * Z.pos my)); [nia|nia|exact Hcross|done]. }
  destruct Hrep as [[Hm He']|(HM53 & Hm & He')].
  - split; [unfold E; lia|]. split; [|done].
    replace (e' - E) with 0 by (unfold E; lia). lia.
  - split; [unfold E; lia|]. split; [|done].
    replace (e' - E) with 1 by (unfold E; lia). rewrite Hm, HM53. reflexivity.
Qed.

End Rounding.

(** ** Rounding to two decimals *)

Section RoundingToHundredths.

(** [hundredths m e] is the integer nearest to [100 * m * 2^e], ties to
    even. *)
Lemma hundredths_nearest_even (m : positive) (e : Z) :
  nearest_even (100 * Z.pos m * 2 ^ Z.max e 0) (2 ^ Z.max (- e) 0) (hundredths m e).
Proof.
  unfold nearest_even, hundredths. destruct e as [|p|p].
  - change (2 ^ Z.max 0 0) with 1. change (2 ^ Z.max (- 0) 0) with 1.
    change (2 ^ 0) with 1. split; [lia|]. intros H. lia.
  - replace (Z.max (Z.pos p) 0) with (Z.pos p) by lia.
    replace (Z.max (- Z.pos p) 0) with 0 by lia. change (2 ^ 0) with 1.
    split; [lia|]. intros H. lia.
  - replace (Z.max (Z.neg p) 0) with 0 by lia.
    replace (Z.max (- Z.neg p) 0) with (Z.pos p) by lia. change (2 ^ 0) with 1.
    cbv zeta.
    assert (Hd : 0 < 2 ^ Z.pos p) by (apply Z.pow_pos_nonneg; lia).
    pose proof (Z.div_mod (Z.pos m * 100) (2 ^ Z.pos p) ltac:(lia)) as Hdm.
    pose proof (Z.mod_pos_bound (Z.pos m * 100) (2 ^ Z.pos p) Hd) as Hr.
    set (q := Z.pos m * 100 / 2 ^ Z.pos p) in *.
    set (r := (Z.pos m * 100) mod 2 ^ Z.pos p) in *.
    set (d := 2 ^ Z.pos p) in *.
    destruct (Z.compare_spec (2 * r) d) as [Heq|Hlt|Hgt].
    + destruct (Z.even q) eqn:Hev.
      * split; [nia|done].
      * split; [nia|]. intros _. by rewrite Z.even_add, Hev.
    + split; [nia|]. intros H. nia.
    + split; [nia|]. intros H. nia.
Qed.

(** The mantissa of a float has at most 53 bits, and exactly 53 when the
    exponent is not negative. *)
Lemma finite_mantissa_bound (x : float) (s : bool) (m : positive) (e : Z) :
  Prim2SF x = S754_finite s m e ->
  Z.pos m < 2 ^ 53 /\ e <= 971 /\ (0 <= e -> 2 ^ 52 <= Z.pos m).
Proof.
  intros Hx. pose proof (FloatAxioms.Prim2SF_valid x) as Hv. rewrite Hx in Hv.
  unfold SpecFloat.valid_binary, bounded, canonical_mantissa in Hv.
  apply andb_true_iff in Hv as [Hc He]. apply Z.eqb_eq in Hc. apply Z.leb_le in He.
  pose proof (digits2_pos_bounds m) as Hb.
  unfold fexp, emin, prec, emax in Hc. unfold prec, emax in He.
  split; [|split; [lia|]].
  - assert (Hd : Z.pos (digits2_pos m) <= 53) by lia.
    assert (2 ^ Z.pos (digits2_pos m) <= 2 ^ 53) by (apply Z.pow_le_mono_r; lia).
    lia.
  - intros He0.
    assert (Hd : Z.pos (digits2_pos m) = 53) by lia.
    rewrite Hd in Hb. exact (proj1 Hb).
Qed.

(** [round2] rounds to two decimals: the digits kept are those of the
    integer nearest to a hundred times the stored value, ties to even, and
    the result is the float nearest to that number of hundredths. *)
Lemma round2_spec (x : float) : rounded_to_2_decimals x (round2 x).
Proof.
  unfold rounded_to_2_decimals, round2.
  destruct (Prim2SF x) as [s|s| |s m e] eqn:Hx; try done.
  destruct (finite_mantissa_bound x s m e Hx) as (Hm & Hemax & Hnormal).
  exists (hundredths m e). split; [apply hundredths_nearest_even|].
  cbv zeta.
  assert (Hpd : 0 < 2 ^ Z.max (- e) 0) by (apply Z.pow_pos_nonneg; lia).
  assert (Hp0 : 0 < 2 ^ Z.max e 0) by (apply Z.pow_pos_nonneg; lia).
  assert (Hk0 : 0 <= hundredths m e).
  { destruct (hundredths_nearest_even m e) as [Hnear _].
    destruct (Z.le_gt_cases 0 (hundredths m e)); [done|]. nia. }
  destruct (Z.eqb_spec (hundredths m e) 0) as [Hk|Hk].
  - by apply FloatAxioms.Prim2SF_SF2Prim.
  - destruct (Z.le_gt_cases 0 e) as [He|He].
    + (* an integer: nothing is rounded *)
      specialize (Hnormal He).
      assert (Hh : hundredths m e = Z.pos m * 100 * 2 ^ e).
      { unfold hundredths. destruct e; [reflexivity|reflexivity|lia]. }
      pose proof (nearest_quotient_exact s m e 100 ltac:(lia) ltac:(lia) ltac:(lia)) as Hq.
      replace ((if s then -1 else 1) * (Z.pos m * 100 * 2 ^ e))
        with (if s then - hundredths m e else hundredths m e) in Hq
        by (rewrite Hh; destruct s; lia).
      exists (Z.pos m), e, m, e.
      replace (Z.max e 0) with e by lia. replace (Z.max (- e) 0) with 0 by lia.
      change (2 ^ 0) with 1. rewrite Hh.
      assert (Hpe : 0 < 2 ^ e) by (apply Z.pow_pos_nonneg; lia).
      split; [nia|]. split; [lia|]. split.
      { unfold nearest_even.
        replace (Z.pos m * (100 * 2 ^ e) - Z.pos m * 100 * 2 ^ e * 1) with 0 by lia.
        simpl Z.abs. split; [lia|]. intros H0. lia. }
      split; [lia|]. split; [|rewrite <- Hh; exact Hq].
      replace (e - e) with 0 by lia. change (2 ^ 0) with 1. lia.
    + (* a fraction: less than a hundred times [2^53] hundredths *)
      assert (Hkmax : hundredths m e < 2 ^ 1000).
      { destruct (hundredths_nearest_even m e) as [Hnear _].
        replace (Z.max e 0) with 0 in * by lia. change (2 ^ 0) with 1 in *.
        assert (Hbig : 100 * 2 ^ 53 + 1 < 2 ^ 1000) by (vm_compute; done).
        assert (1 <= 2 ^ Z.max (- e) 0) by lia.
        assert (hundredths m e <= 100 * Z.pos m + 1) by nia.
        lia. }
      pose proof (nearest_quotient_spec (if s then - hundredths m e else hundredths m e) 100)
        as Hspec.
      destruct s.
      * specialize (Hspec ltac:(lia) ltac:(lia) ltac:(lia) ltac:(vm_compute; done)).
        replace (Z.abs (- hundredths m e)) with (hundredths m e) in Hspec by lia.
        replace (sign_of (- hundredths m e)) with true in Hspec
          by (unfold sign_of; symmetry; apply Z.ltb_lt; lia).
        exact Hspec.
      * specialize (Hspec ltac:(lia) ltac:(lia) ltac:(lia) ltac:(vm_compute; done)).
        replace (Z.abs (hundredths m e)) with (hundredths m e) in Hspec by lia.
        replace (sign_of (hundredths m e)) with false in Hspec
          by (unfold sign_of; symmetry; apply Z.ltb_ge; lia).
        exact Hspec.
Qed.

End RoundingToHundredths.

(** ** Sizes *)

Section Limits.

Lemma fold_left_add_bounds (l : list Z) (acc B : Z) :
  0 <= B -> Forall (fun x => 0 <= x < B) l ->
  acc <= fold_left Z.add l acc <= acc + Z.of_nat (length l) * B.
Proof.
  intros HB Hall. revert acc. induction Hall as [|x l Hx _ IH]; intros acc.
  - simpl. lia.
  - cbn [fold_left length]. specialize (IH (acc + x)). lia.
Qed.

(** Within the sizes Python allows, the lengths add up to less than
    [2^126]. *)
Lemma sum_of_lengths_bounds (log : list thought_entry) :
  within_limits log ->
  0 <= sum_ints (map (fun entry => len (thought entry)) log) < 2 ^ 126.
Proof.
  intros [Hn Hall]. unfold sum_ints.
  assert (Hall' : Forall (fun x => 0 <= x < 2 ^ 63)
                    (map (fun entry => len (thought entry)) log)).
  { induction Hall as [|entry log Hentry _ IH]; [constructor|].
    - cbn [map]. constructor; [unfold len in *; lia|]. apply IH.
      cbn [length] in Hn. lia. }
  pose proof (fold_left_add_bounds _ 0 (2 ^ 63) ltac:(done) Hall') as Hb.
  rewrite length_map in Hb.
  assert (Hpow : 2 ^ 126 = 2 ^ 63 * 2 ^ 63) by done.
  assert (0 < 2 ^ 63) by done.
  assert (0 <= Z.of_nat (length log)) by lia.
  nia.
Qed.

Lemma omap_length_le {A B : Type} (f : A -> option B) (l : list A) :
  (length (omap f l) <= length l)%nat.
Proof.
  induction l as [|x l IH]; [done|].
  change (omap f (x :: l))
    with (match f x with Some y => y :: omap f l | None => omap f l end).
  destruct (f x); cbn [length]; lia.
Qed.

(** The float of a count: the nearest binary64 number, of ordinary size. *)
Lemma float_of_int_spec (n : Z) :
  0 < n < 2 ^ 63 ->
  nearest_binary64 false n 1 (float_of_int n) /\
  forall s m e, Prim2SF (float_of_int n) = S754_finite s m e ->
    s = false /\ 0 <= Zdigits2 (Z.pos m) + e <= 64.
Proof.
  intros Hn.
  pose proof (nearest_quotient_spec n 1 ltac:(lia) ltac:(lia)) as Hspec.
  assert (Hbig : 2 ^ 63 < 2 ^ 1000) by (vm_compute; done).
  specialize (Hspec ltac:(lia) ltac:(vm_compute; done)).
  replace (Z.abs n) with n in Hspec by lia. change (Z.abs 1) with 1 in Hspec.
  replace (xorb (sign_of n) (sign_of 1)) with false in Hspec.
  2:{ unfold sign_of. destruct (Z.ltb_spec n 0); [lia|done]. }
  split; [exact Hspec|].
  destruct Hspec as (M & E & m0 & e0 & Hbinade & HM & [Hnear _] & HEe & Hval & Hx).
  intros s m e Hx'. unfold float_of_int in Hx'. rewrite Hx in Hx'.
  injection Hx' as <- <- <-. split; [done|].
  assert (Hpd : 0 < 2 ^ (e0 - E)) by (apply Z.pow_pos_nonneg; lia).
  assert (HdM : 53 <= Zdigits2 M <= 54).
  { pose proof (Zdigits2_mono (2 ^ 52) M ltac:(done) ltac:(lia)) as H1.
    pose proof (Zdigits2_mono M (2 ^ 53) ltac:(lia) ltac:(lia)) as H2.
    change (Zdigits2 (2 ^ 52)) with 53 in H1. change (Zdigits2 (2 ^ 53)) with 54 in H2.
    lia. }
  assert (Hdm : Zdigits2 (Z.pos m0) + (e0 - E) = Zdigits2 M).
  { rewrite <- Hval. symmetry. apply Zdigits2_shift; lia. }
  assert (HE1 : E <= 10).
  { destruct (Z.le_gt_cases E 10); [done|].
    replace (Z.max E 0) with E in Hbinade by lia.
    replace (Z.max (- E) 0) with 0 in Hbinade by lia.
    change (2 ^ 0) with 1 in Hbinade.
    assert (2 ^ 11 <= 2 ^ E) by (apply Z.pow_le_mono_r; lia).
    assert (H63 : 2 ^ 63 = 2 ^ 52 * 2 ^ 11) by done.
    assert (0 < 2 ^ 52) by done. nia. }
  assert (HE2 : -53 <= E).
  { destruct (Z.le_gt_cases (-53) E); [done|].
    replace (Z.max E 0) with 0 in Hnear by lia.
    replace (Z.max (- E) 0) with (- E) in Hnear by lia.
    change (2 ^ 0) with 1 in Hnear.
    assert (2 ^ 54 <= 2 ^ (- E)) by (apply Z.pow_le_mono_r; lia).
    assert (H54 : 2 ^ 54 = 2 * 2 ^ 53) by done.
    assert (0 < 2 ^ 53) by done. nia. }
  lia.
Qed.

End Limits.

(** ** The statistics *)

(** C1.  On a log that is not empty, [get_thought_stats] reports as
    [longest_thought_index] the position, counted from 1, of the entry whose
    pair (length of the thought, position) is greatest in the lexicographic
    order: no thought is longer than that entry's, and among the entries
    with a thought of that length it is the last one. *)
Theorem longest_thought_index_lexicographic (self : ThinkToolServer) :
  thoughts_log self <> [] ->
  exists (d : stats) (i : nat) (entry : thought_entry),
    get_thought_stats self = Ok (Json d) /\
    thoughts_log self !! i = Some entry /\
    longest_thought_index d = Some (Z.of_nat i + 1) /\
    (forall j other, thoughts_log self !! j = Some other ->
       lex_le (score j other) (score i entry)) /\
    (forall j other, thoughts_log self !! j = Some other ->
       len (thought other) <= len (thought entry) /\
       (len (thought other) = len (thought entry) -> (j <= i)%nat)).
Proof.
  intros Hne.
  destruct (get_thought_stats_nonempty self Hne) as (best & Hmax & Hstats).
  destruct (max_upper _ _ Hmax) as (Hin & Hall).
  destruct (scores_elem _ _ Hin) as (i & entry & Hi & ->).
  assert (Hlex : forall j other, thoughts_log self !! j = Some other ->
            lex_le (score j other) (score i entry)).
  { intros j other Hj. apply Hall.
    apply list_elem_of_lookup. exists j. by rewrite scores_lookup, Hj. }
  eexists _, i, entry. split; [exact Hstats|]. split; [exact Hi|].
  split; [|split].
  - simpl. destruct (Z.geb_spec (Z.of_nat i) 0); [done | lia].
  - exact Hlex.
  - intros j other Hj. specialize (Hlex j other Hj).
    unfold lex_le, score in Hlex; simpl in Hlex. lia.
Qed.

(** C9.  On a log that is not empty, [longest_thought_length] is the
    greatest length of a thought of the log, except that it is [None] when
    that length is 0. *)
Theorem longest_thought_length_is_maximum (self : ThinkToolServer) :
  thoughts_log self <> [] ->
  exists (d : stats) (m : Z),
    get_thought_stats self = Ok (Json d) /\
    (exists entry, entry ∈ thoughts_log self /\ len (thought entry) = m) /\
    (forall entry, entry ∈ thoughts_log self -> len (thought entry) <= m) /\
    longest_thought_length d = (if m =? 0 then None else Some m).
Proof.
  intros Hne.
  destruct (get_thought_stats_nonempty self Hne) as (best & Hmax & Hstats).
  destruct (max_upper _ _ Hmax) as (Hin & Hall).
  destruct (scores_elem _ _ Hin) as (i & entry & Hi & ->).
  eexists _, (len (thought entry)). split; [exact Hstats|].
  split; [|split].
  - exists entry. split; [|done]. by eapply list_elem_of_lookup_2.
  - intros other Hother. apply list_elem_of_lookup in Hother as [j Hj].
    assert (Hle : lex_le (score j other) (score i entry)).
    { apply Hall. apply list_elem_of_lookup. exists j. by rewrite scores_lookup, Hj. }
    unfold lex_le, score in Hle; simpl in Hle. lia.
  - simpl. unfold len.
    destruct (Z.eqb_spec (Z.of_nat (String.length (thought entry))) 0) as [->|Hm].
    + reflexivity.
    + destruct (Z.gtb_spec (Z.of_nat (String.length (thought entry))) 0); [done | lia].
Qed.

(** C3, amended.  On a log that is not empty and within the sizes Python
    allows, [average_length] is [r], where [mean] is the binary64 number
    nearest to the exact quotient of the sum of the lengths of all thoughts
    by their number (zero when that sum is zero), and [r] is [mean] rounded
    to two decimals: the float nearest to [k / 100], with [k] the integer
    nearest to a hundred times the stored value of [mean], ties to even.
    [average_confidence] is [None] when no entry has a confidence;
    otherwise, with [total] the sum of the supplied confidences as Python's
    [sum] adds them and [count] the float nearest to their number, it is
    [mean] rounded to two decimals in the same way, where [mean] is the
    IEEE quotient of [total] by [count]: zero when [total] is zero, and
    the binary64 number nearest to the exact quotient of the two stored
    values when [total] is neither tiny nor huge. *)
Theorem averages_are_rounded_binary64_means (self : ThinkToolServer) :
  thoughts_log self <> [] ->
  within_limits (thoughts_log self) ->
  exists d : stats,
    get_thought_stats self = Ok (Json d) /\
    (exists mean r : float,
       average_length d = Float r /\
       (if sum_ints (map (fun entry => len (thought entry)) (thoughts_log self)) =? 0
        then Prim2SF mean = S754_zero false
        else nearest_binary64 false
               (sum_ints (map (fun entry => len (thought entry)) (thoughts_log self)))
               (Z.of_nat (length (thoughts_log self))) mean) /\
       rounded_to_2_decimals mean r) /\
    match omap confidence (thoughts_log self) with
    | [] => average_confidence d = None
    | supplied =>
      exists total count mean r : float,
        sum_floats supplied = Float total /\
        nearest_binary64 false (Z.of_nat (length supplied)) 1 count /\
        average_confidence d = Some (Float r) /\
        rounded_to_2_decimals mean r /\
        Prim2SF mean = SFdiv prec emax (Prim2SF total) (Prim2SF count) /\
        (forall s, Prim2SF total = S754_zero s -> Prim2SF mean = S754_zero s) /\
        (forall s m e s' m' e',
           Prim2SF total = S754_finite s m e -> -900 <= e <= 900 ->
           Prim2SF count = S754_finite s' m' e' ->
           s' = false /\
           nearest_binary64 s (Z.pos m * 2 ^ Z.max (e - e') 0)
                            (Z.pos m' * 2 ^ Z.max (e' - e) 0) mean)
    end.
Proof.
  intros Hne Hlim.
  destruct (get_thought_stats_nonempty self Hne) as (best & Hmax & Hstats).
  eexists. split; [exact Hstats|]. cbn [average_length average_confidence].
  pose proof (sum_of_lengths_bounds _ Hlim) as HS.
  destruct Hlim as [Hlen _].
  set (S := sum_ints (map (fun entry => len (thought entry)) (thoughts_log self))) in *.
  set (n := Z.of_nat (length (thoughts_log self))) in *.
  assert (Hn : 0 < n) by (unfold n; destruct (thoughts_log self); [done | simpl; lia]).
  split.
  - exists (nearest_quotient S n), (round2 (nearest_quotient S n)).
    split; [reflexivity|]. split; [|apply round2_spec].
    destruct (Z.eqb_spec S 0) as [HS0|HS0].
    + rewrite HS0. unfold nearest_quotient.
      replace (sign_of n) with false
        by (unfold sign_of; symmetry; apply Z.ltb_ge; lia).
      by apply FloatAxioms.Prim2SF_SF2Prim.
    + assert (Hbig : 2 ^ 126 < 2 ^ 1000) by (vm_compute; done).
      assert (Hbig' : 2 ^ 63 < 2 ^ 1000) by (vm_compute; done).
      pose proof (nearest_quotient_spec S n HS0 ltac:(lia) ltac:(lia) ltac:(lia)) as Hspec.
      replace (Z.abs S) with S in Hspec by lia.
      replace (Z.abs n) with n in Hspec by lia.
      replace (xorb (sign_of S) (sign_of n)) with false in Hspec; [exact Hspec|].
      unfold sign_of. destruct (Z.ltb_spec S 0); [lia|].
      destruct (Z.ltb_spec n 0); [lia|done].
  - pose proof (omap_length_le confidence (thoughts_log self)) as Hle.
    destruct (omap confidence (thoughts_log self)) as [|c cs] eqn:Hcs; [done|].
    set (k := Z.of_nat (length (c :: cs))) in *.
    assert (Hk : 0 < k < 2 ^ 63) by (unfold k, n in *; cbn [length] in *; lia).
    destruct (float_of_int_spec k Hk) as [Hcount Hsize].
    destruct (sum_floats (c :: cs)) as [i|total] eqn:Hsum; [discriminate Hsum|].
    exists total, (float_of_int k), (total / float_of_int k)%float,
           (round2 (total / float_of_int k)).
    split; [reflexivity|]. split; [exact Hcount|]. split; [reflexivity|].
    split; [apply round2_spec|].
    pose proof (FloatAxioms.div_spec total (float_of_int k)) as Hdiv.
    split; [exact Hdiv|]. split.
    + intros s Hzero. rewrite Hdiv, Hzero.
      destruct Hcount as (M & E & m0 & e0 & _ & _ & _ & _ & _ & Hx). rewrite Hx.
      unfold FloatAxioms.SF64div, SFdiv. by destruct s.
    + intros s m e s' m' e' Htotal He Hcnt.
      destruct (Hsize s' m' e' Hcnt) as [-> Hd]. split; [done|].
      pose proof (finite_mantissa_bound total s m e Htotal) as (Hm & _ & _).
      assert (Hdm : 1 <= Zdigits2 (Z.pos m) <= 53).
      { pose proof (Zdigits2_pos (Z.pos m) ltac:(lia)).
        pose proof (Zdigits2_le (Z.pos m) 53 ltac:(lia) ltac:(lia) Hm). lia. }
      pose proof (float_div_nearest total (float_of_int k) s false m m' e e'
                    Htotal Hcnt ltac:(lia)) as Hq.
      by destruct s.
Qed.

(** C3, as it is worded, fails.  Of two hundred thoughts, three have one
    character and the others none: the mean of the lengths is 3/200, the
    only integer nearest to [100 * 3 / 200] with ties to even is 2, and
    the float of 2/100 is [0.02]; the statistics report [0.01], because the
    binary64 quotient 3/200 lies below 0.015.  With the confidences [0.25]
    and [2^-60], a hundred times the mean of the two stored values is
    [12.5 + 100 * 2^-61], whose only nearest integer is 13, and the float
    of 13/100 is [0.13]; the statistics report [0.12], because the sum of
    the two confidences is the float [0.25]. *)
Lemma averages_are_not_the_exact_means_rounded :
  (sum_ints (map (fun entry => len (thought entry)) (thoughts_log three_in_two_hundred)) = 3 /\
   Z.of_nat (length (thoughts_log three_in_two_hundred)) = 200 /\
   (forall k, nearest_even (100 * 3) 200 k -> k = 2) /\
   nearest_quotient 2 100 = 0.02%float /\
   average_length <$> dict_of (get_thought_stats three_in_two_hundred)
   = Some (Float 0.01) /\
   (0.01 =? 0.02)%float = false) /\
  (omap confidence (thoughts_log quarter_and_a_bit) = [0.25; 0x1p-60]%float /\
   Prim2SF 0.25 = S754_finite false 4503599627370496 (-54) /\
   Prim2SF 0x1p-60 = S754_finite false 4503599627370496 (-112) /\
   (forall k,
      nearest_even (100 * (4503599627370496 * 2 ^ 58 + 4503599627370496))
                   (2 * 2 ^ 112) k -> k = 13) /\
   nearest_quotient 13 100 = 0.13%float /\
   average_confidence <$> dict_of (get_thought_stats quarter_and_a_bit)
   = Some (Some (Float 0.12)) /\
   (0.12 =? 0.13)%float = false).
Proof.
  split.
  - split; [vm_compute; reflexivity|]. split; [vm_compute; reflexivity|].
    split.
    { unfold nearest_even. intros k [H1 H2].
      assert (Hk : k = 1 \/ k = 2) by lia.
      destruct Hk as [-> | ->]; [|done].
      specialize (H2 ltac:(lia)). discriminate H2. }
    repeat split; vm_compute; reflexivity.
  - split; [vm_compute; reflexivity|].
    split; [vm_compute; reflexivity|]. split; [vm_compute; reflexivity|].
    split.
    { unfold nearest_even. intros k [H _].
      assert (Hpow : 2 ^ 112 = 5192296858534827628530496329220096) by (vm_compute; done).
      assert (Hpow' : 2 ^ 58 = 288230376151711744) by (vm_compute; done).
      rewrite Hpow, Hpow' in H. lia. }
    repeat split; vm_compute; reflexivity.
Qed.

(** C10.  [get_thought_stats] returns on every server state: neither of its
    two divisions is reached with a zero divisor (a zero divisor is what
    makes [truediv] raise), nor does any other step raise. *)
Theorem get_thought_stats_total (self : ThinkToolServer) :
  (exists out, get_thought_stats self = Ok out) /\
  get_thought_stats self <> Raise ZeroDivisionError /\
  (forall x n, truediv x n = Raise ZeroDivisionError <-> n = 0).
Proof.
  assert (Hret : exists out, get_thought_stats self = Ok out).
  { destruct (thoughts_log self) as [|entry log] eqn:Hlog.
    - exists (Sentence "No thoughts have been recorded yet.").
      unfold get_thought_stats. by rewrite Hlog.
    - destruct (get_thought_stats_nonempty self) as (best & _ & ->); [by rewrite Hlog|].
      eauto. }
  split; [exact Hret|]. split.
  - destruct Hret as [out ->]. done.
  - intros x n. unfold truediv. destruct (Z.eqb_spec n 0); split; intros; done.
Qed.

(** C8.  On an empty log, [get_thoughts] and [get_thought_stats] both
    return, without raising, one and the same sentence saying that no
    thoughts were recorded. *)
Theorem empty_log_sentence (self : ThinkToolServer) :
  thoughts_log self = [] ->
  get_thoughts self = "No thoughts have been recorded yet." /\
  get_thought_stats self = Ok (Sentence (get_thoughts self)).
Proof.
  intros Hlog. unfold get_thought_stats, get_thoughts. by rewrite Hlog.
Qed.

(** X1.  On a log that is not empty, [pattern_distribution] maps every
    pattern that some entry bears to the number of entries bearing it, and
    has no key for any other pattern. *)
Theorem pattern_distribution_counts (self : ThinkToolServer) :
  thoughts_log self <> [] ->
  exists d : stats,
    get_thought_stats self = Ok (Json d) /\
    forall p : string,
      pattern_distribution d !! p =
      (if count_entries (has_pattern p) (thoughts_log self) =? 0 then None
       else Some (count_entries (has_pattern p) (thoughts_log self))).
Proof.
  intros Hne.
  destruct (get_thought_stats_nonempty self Hne) as (best & _ & Hstats).
  eexists. split; [exact Hstats|]. intros p. simpl pattern_distribution.
  unfold Loop.run. rewrite loop_pattern_counts_from. simpl.
  by destruct (_ =? 0).
Qed.

(** X2.  On a log that is not empty, [thoughts_with_justification] is the
    number of entries with a justification, and [thoughts_with_alternatives]
    the number of entries whose list of alternatives is there and not
    empty. *)
Theorem justification_and_alternatives_counts (self : ThinkToolServer) :
  thoughts_log self <> [] ->
  exists d : stats,
    get_thought_stats self = Ok (Json d) /\
    thoughts_with_justification d
    = count_entries has_justification (thoughts_log self) /\
    thoughts_with_alternatives d
    = count_entries has_alternatives (thoughts_log self).
Proof.
  intros Hne.
  destruct (get_thought_stats_nonempty self Hne) as (best & _ & Hstats).
  eexists. split; [exact Hstats|]. simpl.
  unfold Loop.run.
  by destruct (loop_counters_from (thoughts_log self) Loop.start) as [-> ->].
Qed.

(** ** The log along a session *)

Lemma step_length (self : ThinkToolServer) (c : call) :
  length (thoughts_log (step self c)) =
  match c with
  | Think _ _ => S (length (thoughts_log self))
  | ClearThoughts => O
  | GetThoughts | GetThoughtStats => length (thoughts_log self)
  end.
Proof.
  destruct c; simpl; try done.
  rewrite length_app. simpl. lia.
Qed.

Lemma run_length (cs : list call) (self : ThinkToolServer) :
  length (thoughts_log (run self cs)) =
  thinks_since_clear (length (thoughts_log self)) cs.
Proof.
  unfold run, thinks_since_clear.
  revert self; induction cs as [|c cs IH]; intros self; simpl; [done|].
  rewrite IH, step_length. by destruct c.
Qed.

Lemma run_reads_only (cs : list call) (self : ThinkToolServer) :
  forallb reads_only cs = true -> run self cs = self.
Proof.
  unfold run. revert self; induction cs as [|c cs IH]; intros self H; simpl; [done|].
  simpl in H. apply andb_true_iff in H as [Hc Hcs].
  rewrite <- (IH self Hcs) at 2. by destruct c.
Qed.

(** C2.  After any sequence of calls, the log holds as many entries as
    there were calls of [think] since the last [clear_thoughts] (or since
    the state the sequence started from, whose entries count as well), and
    [get_thought_stats] reports that number as [total_thoughts]; with no
    entry it returns the sentence for the empty log.  Call by call, [think]
    adds exactly one entry, [clear_thoughts] leaves none, and the other two
    calls leave the number as it is. *)
Theorem total_thoughts_counts_thinks (self : ThinkToolServer) (cs : list call) :
  let n := thinks_since_clear (length (thoughts_log self)) cs in
  length (thoughts_log (run self cs)) = n /\
  match n with
  | O => get_thought_stats (run self cs)
         = Ok (Sentence "No thoughts have been recorded yet.")
  | S _ => exists d, get_thought_stats (run self cs) = Ok (Json d) /\
                     total_thoughts d = Z.of_nat n
  end /\
  forall (srv : ThinkToolServer) (c : call),
    length (thoughts_log (step srv c)) =
    match c with
    | Think _ _ => S (length (thoughts_log srv))
    | ClearThoughts => O
    | GetThoughts | GetThoughtStats => length (thoughts_log srv)
    end.
Proof.
  intros n. pose proof (run_length cs self) as Hlen. fold n in Hlen.
  split; [exact Hlen|]. split; [|apply step_length].
  destruct n as [|k].
  - apply nil_length_inv in Hlen. unfold get_thought_stats. by rewrite Hlen.
  - destruct (get_thought_stats_nonempty (run self cs)) as (best & _ & ->).
    { intros E. by rewrite E in Hlen. }
    eexists. split; [reflexivity|]. simpl total_thoughts. by rewrite Hlen.
Qed.

(** C6.  [clear_thoughts] leaves the log empty and returns a sentence with
    the decimal numeral of the number of entries the log had; called again
    at once it reports 0; and [get_thoughts] and [get_thought_stats], called
    after it with only such reading calls in between, return the sentence
    for the empty log. *)
Theorem clear_thoughts_reports_and_empties (self : ThinkToolServer) :
  let count := Z.of_nat (length (thoughts_log self)) in
  let cleared := (clear_thoughts self).2 in
  thoughts_log cleared = [] /\
  (clear_thoughts self).1 = "Cleared " +:+ str_of_int count +:+ " recorded thoughts." /\
  int_of_str (str_of_int count) = Some count /\
  (clear_thoughts cleared).1 = "Cleared 0 recorded thoughts." /\
  forall cs, forallb reads_only cs = true ->
    get_thoughts (run cleared cs) = "No thoughts have been recorded yet." /\
    get_thought_stats (run cleared cs)
    = Ok (Sentence "No thoughts have been recorded yet.").
Proof.
  intros count cleared. repeat split; try reflexivity.
  - apply int_of_str_of_int.
  - by rewrite run_reads_only.
  - by rewrite run_reads_only.
Qed.

Lemma step_keeps_entries (self : ThinkToolServer) (c : call) :
  thoughts_log (step self c) = [] \/
  thoughts_log self `prefix_of` thoughts_log (step self c).
Proof.
  destruct c; simpl; auto.
  right. by apply prefix_app_r.
Qed.

Lemma run_keeps_entries (cs : list call) (self : ThinkToolServer) :
  existsb is_clear cs = false ->
  thoughts_log self `prefix_of` thoughts_log (run self cs).
Proof.
  unfold run.
  revert self; induction cs as [|c cs IH]; intros self H; simpl; [done|].
  simpl in H. apply orb_false_iff in H as [Hc Hcs].
  etrans; [|apply IH, Hcs].
  destruct c; simpl in *; try done. by apply prefix_app_r.
Qed.

(** C7.  The entry [think] appends carries the thought and, for each of
    [pattern], [confidence], [alternatives] and [justification], exactly
    what the call passed: the value when one was passed, an empty list of
    alternatives included, and nothing when [None] was.  No call changes an
    entry of the log: a call leaves the earlier entries where they were, or
    ([clear_thoughts]) leaves no entry at all. *)
Theorem entries_hold_what_was_passed
    (now : string) (a : think_args) (self : ThinkToolServer) :
  let entry := new_entry now a self in
  thoughts_log (think now a self).2 = thoughts_log self ++ [entry] /\
  thought entry = arg_thought a /\
  pattern entry = arg_pattern a /\
  confidence entry = arg_confidence a /\
  alternatives entry = arg_alternatives a /\
  justification entry = arg_justification a /\
  (is_Some (pattern entry) <-> arg_pattern a <> None) /\
  (is_Some (confidence entry) <-> arg_confidence a <> None) /\
  (is_Some (alternatives entry) <-> arg_alternatives a <> None) /\
  (is_Some (justification entry) <-> arg_justification a <> None) /\
  (arg_alternatives a = Some [] -> alternatives entry = Some []) /\
  (forall c, thoughts_log (step self c) = [] \/
             thoughts_log self `prefix_of` thoughts_log (step self c)) /\
  (forall cs i old, existsb is_clear cs = false ->
     thoughts_log self !! i = Some old ->
     thoughts_log (run self cs) !! i = Some old).
Proof.
  intros entry.
  assert (Hfields : thought entry = arg_thought a /\ pattern entry = arg_pattern a /\
                    confidence entry = arg_confidence a /\
                    alternatives entry = arg_alternatives a /\
                    justification entry = arg_justification a).
  { unfold entry, new_entry.
    destruct a as [t [p|] [c|] [l|] [j|]]; simpl; done. }
  destruct Hfields as (Ht & Hp & Hc & Hl & Hj).
  split; [reflexivity|].
  do 5 (split; [assumption|]).
  rewrite Hp, Hc, Hl, Hj.
  repeat split; try (by intros [? ->]); try (by intros ?; apply not_eq_None_Some).
  - intros ->. done.
  - apply step_keeps_entries.
  - intros cs i old H Hi.
    eapply prefix_lookup_Some; [exact Hi|].
    by apply run_keeps_entries.
Qed.

(** ** The confirmation of [think] *)

Section Format.

Lemma hundredths_nonneg (m : positive) (e : Z) : 0 <= hundredths m e.
Proof.
  unfold hundredths. destruct e as [|p|p].
  - lia.
  - assert (0 < 2 ^ Z.pos p) by (apply Z.pow_pos_nonneg; lia). nia.
  - assert (Hd : 0 < 2 ^ Z.pos p) by (apply Z.pow_pos_nonneg; lia).
    assert (Hq : 0 <= Z.pos m * 100 / 2 ^ Z.pos p) by (apply Z.div_pos; lia).
    cbv zeta.
    destruct (2 * ((Z.pos m * 100) mod 2 ^ Z.pos p) ?= 2 ^ Z.pos p);
      [destruct (Z.even _) | |]; lia.
Qed.

(** [hundredths m e] is an integer nearest to [m * 2^e * 100]: the value
    itself when [e] is not negative, and within one half of it otherwise. *)
Lemma hundredths_nearest (m : positive) (e : Z) :
  match e with
  | Zneg p => 2 * Z.abs (hundredths m e * 2 ^ Z.pos p - Z.pos m * 100) <= 2 ^ Z.pos p
  | _ => hundredths m e = Z.pos m * 100 * 2 ^ e
  end.
Proof.
  destruct e as [|p|p]; try reflexivity.
  unfold hundredths. cbv zeta.
  assert (Hd : 0 < 2 ^ Z.pos p) by (apply Z.pow_pos_nonneg; lia).
  pose proof (Z.div_mod (Z.pos m * 100) (2 ^ Z.pos p) ltac:(lia)) as Hdm.
  pose proof (Z.mod_pos_bound (Z.pos m * 100) (2 ^ Z.pos p) Hd) as Hr.
  set (q := Z.pos m * 100 / 2 ^ Z.pos p) in *.
  set (r := (Z.pos m * 100) mod 2 ^ Z.pos p) in *.
  set (d := 2 ^ Z.pos p) in *.
  destruct (Z.compare_spec (2 * r) d); [destruct (Z.even q)| |]; nia.
Qed.

Lemma digits_string_of_uint (d : Decimal.uint) :
  digits (NilEmpty.string_of_uint d) = true.
Proof. induction d; simpl; try done. Qed.

Lemma digits_str_of_int (n : Z) :
  0 <= n -> digits (str_of_int n) = true /\ str_of_int n <> "".
Proof.
  intros Hn. unfold str_of_int. destruct n as [|p|p]; [done| |lia].
  simpl. unfold NilZero.string_of_uint.
  pose proof (digits_string_of_uint (Pos.to_uint p)) as Hd.
  pose proof (DecimalPos.Unsigned.to_uint_nonnil p) as Hnil.
  destruct (Pos.to_uint p); try done; split; try done.
Qed.

Lemma two_digits_all : forallb two_digits_ok (map Z.of_nat (seq 0 100)) = true.
Proof. vm_compute. reflexivity. Qed.

Lemma two_digits_spec (r : Z) :
  0 <= r < 100 ->
  exists d1 d2, two_digits r = String d1 (String d2 "") /\
                digit d1 = true /\ digit d2 = true.
Proof.
  intros Hr.
  assert (Hok : two_digits_ok r = true).
  { pose proof two_digits_all as Hall. rewrite forallb_forall in Hall.
    apply Hall. apply in_map_iff. exists (Z.to_nat r).
    split; [lia|]. apply in_seq. lia. }
  unfold two_digits_ok in Hok.
  destruct (two_digits r) as [|d1 [|d2 [|? ?]]]; try done.
  apply andb_true_iff in Hok as [H1 H2]. eauto.
Qed.

(** The [.2f] format of a finite float has exactly two decimal places. *)
Lemma format_2f_two_decimals (x : float) :
  finite x = true -> two_decimals (format_2f x).
Proof.
  unfold finite, format_2f. destruct (Prim2SF x) as [s|s| |s m e]; try done; intros _.
  - exists (if s then "-" else ""), "0", "0"%char, "0"%char.
    destruct s; repeat split; auto; done.
  - pose proof (hundredths_nonneg m e) as Hk. cbv zeta.
    destruct (digits_str_of_int (hundredths m e / 100)) as [Hd Hne];
      [apply Z.div_pos; lia|].
    destruct (two_digits_spec (hundredths m e mod 100)) as (d1 & d2 & -> & H1 & H2);
      [apply Z.mod_pos_bound; lia|].
    exists (if s then "-" else ""), (str_of_int (hundredths m e / 100)), d1, d2.
    repeat split; auto. destruct s; auto.
Qed.

End Format.

(** The confirmation, part by part. *)
Lemma confirmation_parts (a : think_args) :
  confirmation a =
  ("Thought recorded: " +:+ slice_to 100 (arg_thought a) +:+ "...")
  +:+ match arg_pattern a with
      | Some p => if truthy_str p then " [Pattern: " +:+ p +:+ "]" else ""
      | None => ""
      end
  +:+ match arg_confidence a with
      | Some c => " [Confidence: " +:+ format_2f c +:+ "]"
      | None => ""
      end.
Proof.
  unfold confirmation.
  destruct (arg_pattern a) as [p|], (arg_confidence a) as [c|];
    try destruct (truthy_str p);
    rewrite ?append_nil_r, ?append_assoc; reflexivity.
Qed.

(** C4, as stated, fails: a call that passes the empty string as [pattern]
    passes a pattern that is not [None], and its confirmation has no pattern
    annotation. *)
Lemma empty_pattern_is_not_annotated :
  arg_pattern empty_pattern <> None /\
  (think "2025-01-01T10:00:00" empty_pattern (init "UTC")).1 = "Thought recorded: x..." /\
  contains "[Pattern: " (think "2025-01-01T10:00:00" empty_pattern (init "UTC")).1 = false.
Proof. repeat split; done. Qed.

(** C4, amended.  The confirmation is the sentence with the thought,
    followed by a bracketed pattern annotation exactly when a pattern was
    passed and is not the empty string, followed by a bracketed confidence
    annotation exactly when a confidence was passed.  The confidence is
    rendered by the [.2f] format, which gives exactly two decimal places for
    every finite value. *)
Theorem confirmation_annotations
    (now : string) (a : think_args) (self : ThinkToolServer) :
  let said := (think now a self).1 in
  said =
    ("Thought recorded: " +:+ slice_to 100 (arg_thought a) +:+ "...")
    +:+ match arg_pattern a with
        | Some p => if truthy_str p then " [Pattern: " +:+ p +:+ "]" else ""
        | None => ""
        end
    +:+ match arg_confidence a with
        | Some c => " [Confidence: " +:+ format_2f c +:+ "]"
        | None => ""
        end /\
  (forall p, arg_pattern a = Some p -> p <> "" ->
     contains (" [Pattern: " +:+ p +:+ "]") said = true) /\
  (forall c, arg_confidence a = Some c ->
     contains (" [Confidence: " +:+ format_2f c +:+ "]") said = true /\
     (finite c = true -> two_decimals (format_2f c))).
Proof.
  intros said. unfold said. simpl. rewrite confirmation_parts.
  set (head := "Thought recorded: " +:+ slice_to 100 (arg_thought a) +:+ "...").
  split; [reflexivity|]. split.
  - intros p -> Hp. destruct p as [|ch p]; [done|]. simpl truthy_str. cbv iota.
    apply contains_intro.
  - intros c ->. split; [|apply format_2f_two_decimals].
    rewrite <- (append_assoc head). apply contains_suffix.
Qed.

(** C5.  The confirmation of every call holds the first 100 characters of
    the thought (all of it when it is shorter) followed by three dots, right
    after ["Thought recorded: "]; and the call with the thought
    ["Consider edge cases"], the pattern ["critical"] and the confidence 0.8
    is confirmed with ["Consider edge cases..."], ["[Pattern: critical]"]
    and ["[Confidence: 0.80]"]. *)
Theorem confirmation_quotes_thought
    (now : string) (a : think_args) (self : ThinkToolServer) :
  let said := (think now a self).1 in
  (exists rest,
     said = "Thought recorded: " +:+ slice_to 100 (arg_thought a) +:+ "..." +:+ rest) /\
  contains (slice_to 100 (arg_thought a) +:+ "...") said = true /\
  (exists rest, arg_thought a = slice_to 100 (arg_thought a) +:+ rest) /\
  String.length (slice_to 100 (arg_thought a))
  = Nat.min 100 (String.length (arg_thought a)) /\
  ((String.length (arg_thought a) <= 100)%nat ->
     contains (arg_thought a +:+ "...") said = true) /\
  (think now edge_cases self).1
  = "Thought recorded: Consider edge cases... [Pattern: critical] [Confidence: 0.80]" /\
  contains "Consider edge cases..." (think now edge_cases self).1 = true /\
  contains "[Pattern: critical]" (think now edge_cases self).1 = true /\
  contains "[Confidence: 0.80]" (think now edge_cases self).1 = true.
Proof.
  intros said.
  assert (Hsaid : exists rest,
    said = "Thought recorded: " +:+ slice_to 100 (arg_thought a) +:+ "..." +:+ rest).
  { unfold said. simpl. rewrite confirmation_parts. eexists.
    rewrite !append_assoc. reflexivity. }
  assert (Hin : contains (slice_to 100 (arg_thought a) +:+ "...") said = true).
  { destruct Hsaid as [rest ->].
    rewrite <- (append_assoc (slice_to 100 (arg_thought a))). apply contains_intro. }
  split; [exact Hsaid|]. split; [exact Hin|].
  split; [apply slice_to_prefix|]. split; [apply slice_to_length|].
  split; [intros Hshort; by rewrite slice_to_all in Hin|].
  change (think now edge_cases self).1 with (confirmation edge_cases).
  repeat split; vm_compute; reflexivity.
Qed.

(** ** The theorems at sample sessions *)

Lemma longest_thought_index_lexicographic_witness :
  thoughts_log two_fives <> [] /\
  exists (d : stats) (i : nat) (entry : thought_entry),
    get_thought_stats two_fives = Ok (Json d) /\
    thoughts_log two_fives !! i = Some entry /\
    longest_thought_index d = Some (Z.of_nat i + 1) /\
    (forall j other, thoughts_log two_fives !! j = Some other ->
       lex_le (score j other) (score i entry)) /\
    (forall j other, thoughts_log two_fives !! j = Some other ->
       len (thought other) <= len (thought entry) /\
       (len (thought other) = len (thought entry) -> (j <= i)%nat)).
Proof.
  assert (H : thoughts_log two_fives <> []) by (vm_compute; discriminate).
  split; [exact H | exact (longest_thought_index_lexicographic two_fives H)].
Defined.

Lemma longest_thought_length_is_maximum_witness :
  thoughts_log three_thoughts <> [] /\
  exists (d : stats) (m : Z),
    get_thought_stats three_thoughts = Ok (Json d) /\
    (exists entry, entry ∈ thoughts_log three_thoughts /\ len (thought entry) = m) /\
    (forall entry, entry ∈ thoughts_log three_thoughts -> len (thought entry) <= m) /\
    longest_thought_length d = (if m =? 0 then None else Some m).
Proof.
  assert (H : thoughts_log three_thoughts <> []) by (vm_compute; discriminate).
  split; [exact H | exact (longest_thought_length_is_maximum three_thoughts H)].
Defined.

Lemma averages_are_rounded_binary64_means_witness :
  thoughts_log three_thoughts <> [] /\
  within_limits (thoughts_log three_thoughts) /\
  exists d : stats,
    get_thought_stats three_thoughts = Ok (Json d) /\
    (exists mean r : float,
       average_length d = Float r /\
       (if sum_ints (map (fun entry => len (thought entry)) (thoughts_log three_thoughts)) =? 0
        then Prim2SF mean = S754_zero false
        else nearest_binary64 false
               (sum_ints (map (fun entry => len (thought entry)) (thoughts_log three_thoughts)))
               (Z.of_nat (length (thoughts_log three_thoughts))) mean) /\
       rounded_to_2_decimals mean r) /\
    match omap confidence (thoughts_log three_thoughts) with
    | [] => average_confidence d = None
    | supplied =>
      exists total count mean r : float,
        sum_floats supplied = Float total /\
        nearest_binary64 false (Z.of_nat (length supplied)) 1 count /\
        average_confidence d = Some (Float r) /\
        rounded_to_2_decimals mean r /\
        Prim2SF mean = SFdiv prec emax (Prim2SF total) (Prim2SF count) /\
        (forall s, Prim2SF total = S754_zero s -> Prim2SF mean = S754_zero s) /\
        (forall s m e s' m' e',
           Prim2SF total = S754_finite s m e -> -900 <= e <= 900 ->
           Prim2SF count = S754_finite s' m' e' ->
           s' = false /\
           nearest_binary64 s (Z.pos m * 2 ^ Z.max (e - e') 0)
                            (Z.pos m' * 2 ^ Z.max (e' - e) 0) mean)
    end.
Proof.
  assert (H : thoughts_log three_thoughts <> []) by (vm_compute; discriminate).
  assert (L : within_limits (thoughts_log three_thoughts)).
  { split; [vm_compute; reflexivity|]. repeat constructor. }
  split; [exact H|]. split; [exact L|].
  exact (averages_are_rounded_binary64_means three_thoughts H L).
Defined.

Lemma empty_log_sentence_witness :
  thoughts_log (init "UTC") = [] /\
  get_thoughts (init "UTC") = "No thoughts have been recorded yet." /\
  get_thought_stats (init "UTC") = Ok (Sentence (get_thoughts (init "UTC"))).
Proof.
  split; [reflexivity | exact (empty_log_sentence (init "UTC") eq_refl)].
Defined.

Lemma pattern_distribution_counts_witness :
  thoughts_log a_b_a <> [] /\
  exists d : stats,
    get_thought_stats a_b_a = Ok (Json d) /\
    forall p : string,
      pattern_distribution d !! p =
      (if count_entries (has_pattern p) (thoughts_log a_b_a) =? 0 then None
       else Some (count_entries (has_pattern p) (thoughts_log a_b_a))).
Proof.
  assert (H : thoughts_log a_b_a <> []) by (vm_compute; discriminate).
  split; [exact H | exact (pattern_distribution_counts a_b_a H)].
Defined.

Lemma justification_and_alternatives_counts_witness :
  thoughts_log three_thoughts <> [] /\
  exists d : stats,
    get_thought_stats three_thoughts = Ok (Json d) /\
    thoughts_with_justification d
    = count_entries has_justification (thoughts_log three_thoughts) /\
    thoughts_with_alternatives d
    = count_entries has_alternatives (thoughts_log three_thoughts).
Proof.
  assert (H : thoughts_log three_thoughts <> []) by (vm_compute; discriminate).
  split; [exact H | exact (justification_and_alternatives_counts three_thoughts H)].
Defined.

(** Rounding to two decimals follows the binary value of the float, ties
    to even: 2.675 is stored slightly below, 0.125 exactly. *)
Example rounding_of_stored_values :
  round2 2.675 = 2.67%float /\ round2 0.125 = 0.12%float /\
  round2 1234.567 = 1234.57%float /\ round2 (-0.001) = (-0)%float /\
  format_2f 2.675 = "2.67" /\ format_2f 0.125 = "0.12" /\
  format_2f 0 = "0.00" /\ format_2f (-0.001) = "-0.00" /\
  format_2f infinity = "inf" /\ format_2f nan = "nan" /\
  truediv (Int 23) 3 = Ok (Float 7.666666666666667) /\
  truediv (Float 1.3) 2 = Ok (Float 0.65).
Proof. repeat split; vm_compute; reflexivity. Qed.

(** The same statistics, evaluated.  Of two thoughts of five characters the
    second is the longest; the lengths 19, 0 and 4 average to 7.67 and the
    confidences 0.8 and 0.5 to 0.65; without any confidence the average is
    [None] although the log is not empty; a log of empty thoughts has no
    longest length but still a longest index. *)
Example two_fives_stats :
  (fun d => (total_thoughts d, longest_thought_index d, longest_thought_length d,
             average_length d, average_confidence d))
    <$> dict_of (get_thought_stats two_fives)
  = Some (2, Some 2, Some 5, Float 5, None).
Proof. vm_compute. reflexivity. Qed.

Example three_thoughts_stats :
  (fun d => (total_thoughts d, longest_thought_index d, longest_thought_length d,
             average_length d, average_confidence d,
             thoughts_with_justification d, thoughts_with_alternatives d,
             pattern_distribution d !! "critical",
             pattern_distribution d !! "analytical",
             pattern_distribution d !! "creative"))
    <$> dict_of (get_thought_stats three_thoughts)
  = Some (3, Some 1, Some 19, Float 7.67, Some (Float 0.65), 1, 0,
          Some 1, Some 1, None).
Proof. vm_compute. reflexivity. Qed.

(** [sum] keeps what a running total loses.  The confidences [1e16], [1]
    and [-1e16] add up to [1], where a running total ends at [0]; [0.04],
    [0.01], [0] and [0.01] add up to the float of 0.06, where a running
    total ends at the next float above, whose quarter would round to
    [0.02]. *)
Example compensated_sum_samples :
  sum_floats [1e16; 1; -1e16]%float = Float 1%float /\
  fold_left PrimFloat.add [1e16; 1; -1e16]%float 0%float = 0%float /\
  average_confidence <$> dict_of (get_thought_stats cancelling)
  = Some (Some (Float 0.33)) /\
  sum_floats [0.04; 0.01; 0; 0.01]%float = Float 0.06 /\
  fold_left PrimFloat.add [0.04; 0.01; 0; 0.01]%float 0%float
  = 0.060000000000000005%float /\
  round2 (0.060000000000000005 / 4) = 0.02%float /\
  average_confidence <$> dict_of (get_thought_stats four_small)
  = Some (Some (Float 0.01)).
Proof. repeat split; vm_compute; reflexivity. Qed.

Example a_b_a_stats :
  (fun d => (pattern_distribution d !! "a", pattern_distribution d !! "b",
             size (pattern_distribution d)))
    <$> dict_of (get_thought_stats a_b_a)
  = Some (Some 2, Some 1, 2%nat).
Proof. vm_compute. reflexivity. Qed.

Example empty_thoughts_stats :
  (fun d => (longest_thought_index d, longest_thought_length d, average_length d))
    <$> dict_of (get_thought_stats
                   (run (init "UTC") [Think "t1" (just ""); Think "t2" (just "")]))
  = Some (Some 2, None, Float 0).
Proof. vm_compute. reflexivity. Qed.

Example three_thoughts_listing :
  get_thoughts three_thoughts =
  "Thought #1 (2025-01-01T10:00:00 UTC): [Pattern: critical, Confidence: 0.80]" +:+ nl +:+
  "Consider edge cases" +:+ nl +:+ nl +:+
  "Thought #2 (2025-01-01T10:00:01 UTC):" +:+ nl +:+ nl +:+ nl +:+
  "Thought #3 (2025-01-01T10:00:02 UTC): [Pattern: analytical, Confidence: 0.50]" +:+ nl +:+
  "Done" +:+ nl +:+ "Justification: checked" +:+ nl.
Proof. vm_compute. reflexivity. Qed.

Example clear_twice :
  (clear_thoughts three_thoughts).1 = "Cleared 3 recorded thoughts." /\
  (clear_thoughts (clear_thoughts three_thoughts).2).1 = "Cleared 0 recorded thoughts.".
Proof. split; vm_compute; reflexivity. Qed.

(** ** More about the built-ins *)

Section MoreStrings.

Lemma contains_refl (s : string) : contains s s = true.
Proof. apply (contains_suffix "" s). Qed.

Lemma contains_app_l (needle a b : string) :
  contains needle a = true -> contains needle (a +:+ b) = true.
Proof.
  intros H. apply contains_inv in H as (pre & suf & ->).
  rewrite !append_assoc. apply contains_intro.
Qed.

Lemma contains_app_r (needle a b : string) :
  contains needle b = true -> contains needle (a +:+ b) = true.
Proof.
  intros H. apply contains_inv in H as (pre & suf & ->).
  rewrite <- append_assoc. apply contains_intro.
Qed.

Lemma contains_trans (a b c : string) :
  contains a b = true -> contains b c = true -> contains a c = true.
Proof.
  intros Hab Hbc. apply contains_inv in Hbc as (pre & suf & ->).
  apply contains_app_r, contains_app_l, Hab.
Qed.

(** Every item of a list occurs in the joined string. *)
Lemma contains_join (sep x : string) (l : list string) :
  x ∈ l -> contains x (join sep l) = true.
Proof.
  induction l as [|y l IH]; intros Hx; [inversion Hx|].
  apply elem_of_cons in Hx as [->|Hx].
  - destruct l; simpl; [apply contains_refl | apply contains_app_l, contains_refl].
  - destruct l as [|z l]; [inversion Hx|].
    change (join sep (y :: z :: l)) with (y +:+ sep +:+ join sep (z :: l)).
    apply contains_app_r, contains_app_r, IH, Hx.
Qed.

Lemma join_snoc (sep x : string) (l : list string) :
  l <> [] -> join sep (l ++ [x]) = join sep l +:+ sep +:+ x.
Proof.
  induction l as [|y l IH]; intros Hne; [done|].
  destruct l as [|z l]; [done|].
  change (join sep ((y :: z :: l) ++ [x]))
    with (y +:+ sep +:+ join sep ((z :: l) ++ [x])).
  rewrite IH by done.
  change (join sep (y :: z :: l)) with (y +:+ sep +:+ join sep (z :: l)).
  by rewrite !append_assoc.
Qed.

Lemma startswith_app_l (p a b : string) :
  startswith p a = true -> startswith p (a +:+ b) = true.
Proof.
  intros H. apply startswith_inv in H as [suf ->].
  rewrite append_assoc. apply startswith_app.
Qed.

Lemma startswith_join (sep p x : string) (l : list string) :
  startswith p x = true -> startswith p (join sep (x :: l)) = true.
Proof.
  intros H. destruct l; simpl; [done | by apply startswith_app_l].
Qed.

Lemma enumerate_app {A : Type} (l k : list A) (start : Z) :
  enumerate start (l ++ k)
  = enumerate start l ++ enumerate (start + Z.of_nat (length l)) k.
Proof.
  revert start; induction l as [|x l IH]; intros start; simpl.
  - by rewrite Z.add_0_r.
  - rewrite IH. do 3 f_equal. lia.
Qed.

Lemma enumerate_map {A B : Type} (g : A -> B) (l : list A) (start : Z) :
  enumerate start (map g l) = map (fun ix => (ix.1, g ix.2)) (enumerate start l).
Proof.
  revert start; induction l as [|x l IH]; intros start; simpl; [done|].
  by rewrite IH.
Qed.

End MoreStrings.

(** ** The listing *)

(** Looking for a part of a string among the operands of its appends. *)
Ltac find_part :=
  first [ apply contains_refl
        | apply contains_app_l; find_part
        | apply contains_app_r; find_part ].

Lemma contains_between (pre needle suf hay : string) :
  hay = pre +:+ needle +:+ suf -> contains needle hay = true.
Proof. intros ->. apply contains_intro. Qed.

(** The block of an entry, line by line: the header with the bracketed
    pattern and confidence, the thought, the justification if there is one,
    the alternatives if there are any. *)
Lemma format_thought_lines (i : Z) (entry : thought_entry) :
  format_thought i entry =
  (header i entry +:+
   match pattern entry, confidence entry with
   | Some p, Some c =>
     " [" +:+ ("Pattern: " +:+ p) +:+ ", " +:+ ("Confidence: " +:+ format_2f c) +:+ "]"
   | Some p, None => " [" +:+ ("Pattern: " +:+ p) +:+ "]"
   | None, Some c => " [" +:+ ("Confidence: " +:+ format_2f c) +:+ "]"
   | None, None => ""
   end)
  +:+ (nl +:+ thought entry +:+ nl)
  +:+ match justification entry with
      | Some j => "Justification: " +:+ j +:+ nl
      | None => ""
      end
  +:+ match alternatives entry with
      | Some (x :: l) => "Alternatives considered: " +:+ join ", " (x :: l) +:+ nl
      | _ => ""
      end.
Proof.
  unfold format_thought, header.
  destruct (pattern entry) as [p|], (confidence entry) as [c|],
    (justification entry) as [j|], (alternatives entry) as [[|x l]|];
    cbn [truthy_list app join];
    rewrite ?append_assoc, ?append_nil_r; reflexivity.
Qed.

Lemma get_thoughts_nonempty (self : ThinkToolServer) :
  thoughts_log self <> [] ->
  get_thoughts self
  = join nl (map (fun ie : Z * thought_entry => format_thought ie.1 ie.2)
                 (enumerate 1 (thoughts_log self))).
Proof. unfold get_thoughts. by destruct (thoughts_log self). Qed.

Lemma blocks_lookup (log : list thought_entry) (i : nat) :
  map (fun ie : Z * thought_entry => format_thought ie.1 ie.2) (enumerate 1 log) !! i
  = format_thought (Z.of_nat i + 1) <$> log !! i.
Proof.
  rewrite list_lookup_fmap, enumerate_lookup.
  destruct (log !! i); simpl; [|done]. by rewrite Z.add_comm.
Qed.

(** X3.  The listing shows every entry of the log: the block of the entry
    at position [i] (counted from 0) is in the listing, it starts with the
    header numbered [i + 1] that carries the timestamp, and the listing has
    the thought on a line of its own, the pattern and the confidence (in the
    [.2f] format) when the entry has them, the justification on a line of
    its own when there is one, and the alternatives, joined by commas, on a
    line of their own when the list is there and not empty. *)
Theorem listing_shows_every_entry
    (self : ThinkToolServer) (i : nat) (entry : thought_entry) :
  thoughts_log self !! i = Some entry ->
  let block := format_thought (Z.of_nat i + 1) entry in
  let listing := get_thoughts self in
  contains block listing = true /\
  startswith ("Thought #" +:+ str_of_int (Z.of_nat i + 1) +:+ " (" +:+
              timestamp entry +:+ "):") block = true /\
  contains (nl +:+ thought entry +:+ nl) listing = true /\
  (forall p, pattern entry = Some p ->
     contains ("Pattern: " +:+ p) listing = true) /\
  (forall c, confidence entry = Some c ->
     contains ("Confidence: " +:+ format_2f c) listing = true) /\
  (forall j, justification entry = Some j ->
     contains (nl +:+ "Justification: " +:+ j +:+ nl) listing = true) /\
  (forall l, alternatives entry = Some l -> l <> [] ->
     contains (nl +:+ "Alternatives considered: " +:+ join ", " l +:+ nl) listing = true).
Proof.
  intros Hi block listing.
  assert (Hblock : contains block listing = true).
  { unfold listing. rewrite get_thoughts_nonempty by (intros E; by rewrite E in Hi).
    apply contains_join, list_elem_of_lookup. exists i.
    by rewrite blocks_lookup, Hi. }
  assert (Hin : forall s, contains s block = true -> contains s listing = true).
  { intros s Hs. by apply (contains_trans s block listing). }
  split; [exact Hblock|]. split.
  { change (startswith (header (Z.of_nat i + 1) entry) block = true).
    unfold block. rewrite format_thought_lines.
    rewrite (append_assoc (header (Z.of_nat i + 1) entry)).
    apply startswith_app. }
  pose proof (format_thought_lines (Z.of_nat i + 1) entry) as Hlines.
  fold block in Hlines.
  split; [|split; [|split; [|split]]].
  - apply Hin. eapply contains_between. exact Hlines.
  - intros p Hp. apply Hin. rewrite Hlines, Hp.
    destruct (confidence entry) as [c|]; find_part.
  - intros c Hc. apply Hin. rewrite Hlines, Hc.
    destruct (pattern entry) as [p|]; find_part.
  - intros j Hj. apply Hin. rewrite Hj in Hlines.
    apply (contains_between
             (header (Z.of_nat i + 1) entry +:+
              match pattern entry, confidence entry with
              | Some p, Some c =>
                " [" +:+ ("Pattern: " +:+ p) +:+ ", " +:+
                ("Confidence: " +:+ format_2f c) +:+ "]"
              | Some p, None => " [" +:+ ("Pattern: " +:+ p) +:+ "]"
              | None, Some c => " [" +:+ ("Confidence: " +:+ format_2f c) +:+ "]"
              | None, None => ""
              end +:+ nl +:+ thought entry)
             _
             match alternatives entry with
             | Some (x :: l) => "Alternatives considered: " +:+ join ", " (x :: l) +:+ nl
             | _ => ""
             end).
    rewrite Hlines, ?append_assoc. reflexivity.
  - intros l Hl Hne. apply Hin. rewrite Hl in Hlines.
    destruct l as [|x l]; [done|].
    apply (contains_between
             (header (Z.of_nat i + 1) entry +:+
              match pattern entry, confidence entry with
              | Some p, Some c =>
                " [" +:+ ("Pattern: " +:+ p) +:+ ", " +:+
                ("Confidence: " +:+ format_2f c) +:+ "]"
              | Some p, None => " [" +:+ ("Pattern: " +:+ p) +:+ "]"
              | None, Some c => " [" +:+ ("Confidence: " +:+ format_2f c) +:+ "]"
              | None, None => ""
              end +:+ nl +:+ thought entry +:+
              match justification entry with
              | Some j => nl +:+ "Justification: " +:+ j
              | None => ""
              end)
             _ "").
    rewrite Hlines. destruct (justification entry);
      rewrite ?append_assoc, ?append_nil_r; reflexivity.
Qed.

Lemma format_thought_starts (i : Z) (entry : thought_entry) :
  startswith "Thought #" (format_thought i entry) = true.
Proof.
  rewrite format_thought_lines. unfold header.
  rewrite !append_assoc. apply startswith_app.
Qed.

(** X4.  Recording a thought adds one block at the end of the listing and
    leaves the blocks before it as they were: the listing after [think] is
    the listing before it, a line break, and the block of the new entry,
    numbered one more than the log held entries; on an empty log it is the
    block numbered 1 alone. *)
Theorem listing_grows_by_one_block
    (now : string) (a : think_args) (self : ThinkToolServer) :
  get_thoughts (think now a self).2 =
  (if truthy_list (thoughts_log self) then get_thoughts self +:+ nl else "")
  +:+ format_thought (Z.of_nat (length (thoughts_log self)) + 1) (new_entry now a self).
Proof.
  destruct (thoughts_log self) as [|entry log] eqn:Hlog.
  - unfold get_thoughts, think. simpl. rewrite Hlog. reflexivity.
  - rewrite (get_thoughts_nonempty self) by (by rewrite Hlog).
    rewrite get_thoughts_nonempty by (simpl; rewrite Hlog; done).
    simpl thoughts_log. rewrite Hlog.
    rewrite enumerate_app, map_app.
    change (truthy_list (entry :: log)) with true. cbv iota.
    cbn [enumerate map fst snd].
    rewrite join_snoc by done.
    rewrite (Z.add_comm 1 (Z.of_nat (length (entry :: log)))).
    symmetry. apply append_assoc.
Qed.

(** X5.  The sentence for the empty log is returned for the empty log
    only: a listing of recorded thoughts starts with ["Thought #"], whatever
    the thoughts say, and statistics of recorded thoughts are a dictionary. *)
Theorem sentence_means_empty_log (self : ThinkToolServer) :
  (get_thoughts self = "No thoughts have been recorded yet." <-> thoughts_log self = []) /\
  ((exists s, get_thought_stats self = Ok (Sentence s)) <-> thoughts_log self = []) /\
  (thoughts_log self <> [] -> startswith "Thought #" (get_thoughts self) = true).
Proof.
  assert (Hstart : thoughts_log self <> [] ->
            startswith "Thought #" (get_thoughts self) = true).
  { intros Hne. rewrite get_thoughts_nonempty by done.
    destruct (thoughts_log self) as [|entry log]; [done|].
    simpl map. apply startswith_join, format_thought_starts. }
  split; [|split; [|exact Hstart]].
  - split.
    + intros Heq. destruct (thoughts_log self) as [|entry log] eqn:Hlog; [done|].
      rewrite Heq in Hstart. discriminate Hstart. done.
    + intros Hlog. unfold get_thoughts. by rewrite Hlog.
  - split.
    + intros [s Hs]. destruct (thoughts_log self) as [|entry log] eqn:Hlog; [done|].
      destruct (get_thought_stats_nonempty self) as (best & _ & Hd);
        [by rewrite Hlog|].
      rewrite Hd in Hs. discriminate Hs.
    + intros Hlog. eexists. unfold get_thought_stats. by rewrite Hlog.
Qed.

Lemma step_timezone_name (self : ThinkToolServer) (c : call) :
  timezone_name (step self c) = timezone_name self.
Proof. by destruct c. Qed.

Lemma run_timezone_name (cs : list call) (self : ThinkToolServer) :
  timezone_name (run self cs) = timezone_name self.
Proof.
  unfold run. revert self; induction cs as [|c cs IH]; intros self; simpl; [done|].
  by rewrite IH, step_timezone_name.
Qed.

Lemma run_app (self : ThinkToolServer) (cs cs' : list call) :
  run self (cs ++ cs') = run (run self cs) cs'.
Proof. apply fold_left_app. Qed.

Lemma run_stamped (cs : list call) (self : ThinkToolServer) :
  Forall (stamped (timezone_name self)) (thoughts_log self) ->
  Forall (stamped (timezone_name self)) (thoughts_log (run self cs)).
Proof.
  unfold run. revert self; induction cs as [|c cs IH]; intros self Hall; simpl; [done|].
  rewrite <- (step_timezone_name self c). apply IH.
  rewrite step_timezone_name.
  destruct c as [now a| | |]; simpl; try done.
  apply Forall_app. split; [done|]. constructor; [|done].
  exists now. unfold new_entry.
  by destruct (arg_pattern a), (arg_confidence a), (arg_alternatives a),
    (arg_justification a).
Qed.

(** X6.  The zone label never changes during a session, and every entry
    recorded in a session that started with the label [tz] has a timestamp
    made of the local time passed to [think], a space and [tz]. *)
Theorem zone_label_is_fixed (tz : string) (cs : list call) :
  timezone_name (run (init tz) cs) = tz /\
  Forall (stamped tz) (thoughts_log (run (init tz) cs)) /\
  forall now a, let after := (think now a (run (init tz) cs)).2 in
    last (thoughts_log after) = Some (new_entry now a (run (init tz) cs)) /\
    timestamp (new_entry now a (run (init tz) cs)) = now +:+ " " +:+ tz.
Proof.
  pose proof (run_timezone_name cs (init tz)) as Htz. simpl in Htz.
  split; [exact Htz|]. split.
  - apply (run_stamped cs (init tz)). constructor.
  - intros now a after. split.
    + unfold after. simpl. apply last_snoc.
    + unfold new_entry.
      destruct (arg_pattern a), (arg_confidence a), (arg_alternatives a),
        (arg_justification a); simpl; unfold get_local_timestamp; by rewrite Htz.
Qed.

(** X7.  [clear_thoughts] forgets the history: the server after a sequence
    of calls depends only on the calls made after the last
    [clear_thoughts] in it, as if the session had just started with the same
    zone label. *)
Theorem clear_forgets_history
    (self : ThinkToolServer) (before after : list call) :
  run self (before ++ ClearThoughts :: after)
  = run (init (timezone_name self)) after.
Proof.
  rewrite run_app. unfold run at 1. simpl fold_left. fold (run (set_log [] (run self before)) after).
  f_equal. unfold set_log, init. by rewrite run_timezone_name.
Qed.

(** X9.  The zone label of a server comes from the environment: a variable
    [TZ] that is set and not empty is the label, whatever [time.tzname] and
    [time.daylight] hold; without it, or with an empty one, the label is the
    item of [time.tzname] at position [time.daylight], the standard
    abbreviation for 0 and the daylight-saving one for 1.  The server starts
    with an empty log, and the label it started with stamps every entry of
    its sessions. *)
Theorem zone_label_from_environment (env : environment) :
  (forall z, TZ env = Some z -> z <> "" -> start_server env = Some (init z)) /\
  (TZ env = None \/ TZ env = Some "" ->
     (daylight env = 0 -> start_server env = Some (init (tzname env).1)) /\
     (daylight env = 1 -> start_server env = Some (init (tzname env).2))) /\
  (forall srv cs, start_server env = Some srv ->
     thoughts_log srv = [] /\
     get_system_timezone env = Some (timezone_name (run srv cs)) /\
     Forall (stamped (timezone_name srv)) (thoughts_log (run srv cs))).
Proof.
  unfold start_server, get_system_timezone. split; [|split].
  - intros z -> Hz. destruct z; done.
  - intros [-> | ->]; split; intros ->; reflexivity.
  - intros srv cs Hsrv.
    destruct (match TZ env with
              | Some z => if truthy_str z then Some z
                          else tuple_item (tzname env) (daylight env)
              | None => tuple_item (tzname env) (daylight env)
              end) as [label|]; simpl in Hsrv; [|done].
    injection Hsrv as <-. split; [done|]. split.
    + by rewrite run_timezone_name.
    + apply run_stamped. constructor.
Qed.

(** ** The statistics, field against field *)

Lemma count_entries_le (test : thought_entry -> bool) (log : list thought_entry) :
  count_entries test log <= Z.of_nat (length log).
Proof.
  induction log as [|entry log IH]; [done|].
  rewrite count_entries_cons. simpl length. destruct (test entry); lia.
Qed.

(** X8.  On a log that is not empty the fields of the statistics agree with
    each other: [longest_thought_index] is never [None] and lies between 1
    and [total_thoughts]; [longest_thought_length] is the length of the
    thought of the entry at that index ([None] for the length 0); the two
    counters lie between 0 and [total_thoughts]; every count of
    [pattern_distribution] lies between 1 and [total_thoughts]. *)
Theorem statistics_agree (self : ThinkToolServer) :
  thoughts_log self <> [] ->
  exists (d : stats) (index : Z) (entry : thought_entry),
    get_thought_stats self = Ok (Json d) /\
    total_thoughts d = Z.of_nat (length (thoughts_log self)) /\
    longest_thought_index d = Some index /\
    1 <= index <= total_thoughts d /\
    thoughts_log self !! Z.to_nat (index - 1) = Some entry /\
    longest_thought_length d
    = (if len (thought entry) =? 0 then None else Some (len (thought entry))) /\
    0 <= thoughts_with_justification d <= total_thoughts d /\
    0 <= thoughts_with_alternatives d <= total_thoughts d /\
    (forall p n, pattern_distribution d !! p = Some n -> 1 <= n <= total_thoughts d).
Proof.
  intros Hne.
  destruct (get_thought_stats_nonempty self Hne) as (best & Hmax & Hstats).
  destruct (max_upper _ _ Hmax) as (Hin & _).
  destruct (scores_elem _ _ Hin) as (i & entry & Hi & ->).
  pose proof (lookup_lt_Some _ _ _ Hi) as Hlt.
  destruct (loop_counters_from (thoughts_log self) Loop.start) as [Hj Ha].
  eexists _, (Z.of_nat i + 1), entry. split; [exact Hstats|].
  cbn [total_thoughts longest_thought_index longest_thought_length
       thoughts_with_justification thoughts_with_alternatives pattern_distribution
       score fst snd].
  split; [done|]. split.
  { destruct (Z.geb_spec (Z.of_nat i) 0); [done | lia]. }
  split; [lia|]. split.
  { replace (Z.to_nat (Z.of_nat i + 1 - 1)) with i by lia. exact Hi. }
  split.
  { unfold len. destruct (Z.eqb_spec (Z.of_nat (String.length (thought entry))) 0) as [->|].
    - done.
    - destruct (Z.gtb_spec (Z.of_nat (String.length (thought entry))) 0); [done | lia]. }
  unfold Loop.run. rewrite Hj, Ha. simpl.
  pose proof (count_entries_le has_justification (thoughts_log self)).
  pose proof (count_entries_le has_alternatives (thoughts_log self)).
  pose proof (count_entries_nonneg has_justification (thoughts_log self)).
  pose proof (count_entries_nonneg has_alternatives (thoughts_log self)).
  split; [lia|]. split; [lia|].
  intros p n. rewrite loop_pattern_counts_from. simpl.
  pose proof (count_entries_le (has_pattern p) (thoughts_log self)).
  pose proof (count_entries_nonneg (has_pattern p) (thoughts_log self)).
  destruct (Z.eqb_spec (count_entries (has_pattern p) (thoughts_log self)) 0);
    [done|]. intros [= <-]. rewrite lookup_empty. simpl. lia.
Qed.

Section SumOfCounts.

Lemma sum_of_counts_insert (m : gmap string Z) (p : string) (n : Z) :
  sum_of_counts (<[p := n]> m) = sum_of_counts m - default 0 (m !! p) + n.
Proof.
  unfold sum_of_counts.
  destruct (m !! p) as [old|] eqn:Hp; simpl.
  - rewrite <- (insert_delete_eq m).
    rewrite map_fold_insert_L; [|intros; lia | apply lookup_delete_eq].
    rewrite (map_fold_delete_L _ _ p old m); [lia | intros; lia | done].
  - rewrite map_fold_insert_L; [lia | intros; lia | done].
Qed.

Lemma loop_sum_of_counts_from (log : list thought_entry) (v : Loop.vars) :
  sum_of_counts (Loop.pattern_counts (fold_left Loop.body log v))
  = sum_of_counts (Loop.pattern_counts v) + count_entries has_some_pattern log.
Proof.
  revert v; induction log as [|entry log IH]; intros v.
  - unfold count_entries. simpl. lia.
  - simpl fold_left. rewrite IH, count_entries_cons.
    unfold has_some_pattern at 2. simpl Loop.pattern_counts.
    destruct (pattern entry) as [p|]; [|lia].
    rewrite sum_of_counts_insert. lia.
Qed.

End SumOfCounts.

(** X10.  On a log that is not empty, the counts of [pattern_distribution]
    add up to the number of entries that bear a pattern: every such entry is
    counted once, under its own pattern. *)
Theorem pattern_counts_add_up (self : ThinkToolServer) :
  thoughts_log self <> [] ->
  exists d : stats,
    get_thought_stats self = Ok (Json d) /\
    sum_of_counts (pattern_distribution d)
    = count_entries has_some_pattern (thoughts_log self) /\
    sum_of_counts (pattern_distribution d) <= total_thoughts d.
Proof.
  intros Hne.
  destruct (get_thought_stats_nonempty self Hne) as (best & _ & Hstats).
  eexists. split; [exact Hstats|].
  cbn [pattern_distribution total_thoughts]. unfold Loop.run.
  rewrite loop_sum_of_counts_from.
  pose proof (count_entries_le has_some_pattern (thoughts_log self)).
  split; [|]; cbn; unfold sum_of_counts; rewrite ?map_fold_empty; lia.
Qed.

(** ** Empty lists of alternatives *)

Lemma format_thought_without_empty_alternatives (i : Z) (entry : thought_entry) :
  format_thought i (without_empty_alternatives entry) = format_thought i entry.
Proof.
  unfold format_thought, without_empty_alternatives. simpl.
  by destruct (alternatives entry) as [[|x l]|].
Qed.

Lemma body_without_empty_alternatives (v : Loop.vars) (entry : thought_entry) :
  Loop.body v (without_empty_alternatives entry) = Loop.body v entry.
Proof.
  unfold Loop.body, without_empty_alternatives. simpl.
  by destruct (alternatives entry) as [[|x l]|].
Qed.

Lemma loop_without_empty_alternatives (log : list thought_entry) (v : Loop.vars) :
  fold_left Loop.body (map without_empty_alternatives log) v
  = fold_left Loop.body log v.
Proof.
  revert v; induction log as [|entry log IH]; intros v; simpl; [done|].
  by rewrite body_without_empty_alternatives, IH.
Qed.

(** X11.  A list of alternatives that is empty is stored, but neither
    reader tells it from a missing one: with every such list taken out of
    the log, [get_thoughts] returns the same listing and
    [get_thought_stats] the same statistics. *)
Theorem empty_alternatives_are_not_shown (self : ThinkToolServer) :
  let bare := set_log (map without_empty_alternatives (thoughts_log self)) self in
  get_thoughts bare = get_thoughts self /\
  get_thought_stats bare = get_thought_stats self.
Proof.
  intros bare. unfold bare.
  set (log := thoughts_log self).
  assert (Htruthy : truthy_list (map without_empty_alternatives log) = truthy_list log)
    by (by destruct log).
  split.
  - unfold get_thoughts. simpl thoughts_log. fold log. rewrite Htruthy.
    rewrite enumerate_map, List.map_map.
    destruct (truthy_list log); [|done]. simpl negb. cbv iota. f_equal.
    apply List.map_ext. intros [i entry]. simpl.
    apply format_thought_without_empty_alternatives.
  - unfold get_thought_stats. simpl thoughts_log. fold log. rewrite Htruthy.
    rewrite length_map, enumerate_map, !List.map_map.
    unfold Loop.run. rewrite loop_without_empty_alternatives.
    reflexivity.
Qed.

(** ** The further theorems at sample values *)

Lemma listing_shows_every_entry_witness :
  thoughts_log three_thoughts !! 2%nat
  = Some (new_entry "2025-01-01T10:00:02"
            {| arg_thought := "Done"; arg_pattern := Some "analytical";
               arg_confidence := Some 0.5%float; arg_alternatives := Some [];
               arg_justification := Some "checked" |} (init "UTC")) /\
  contains ("Confidence: " +:+ format_2f 0.5) (get_thoughts three_thoughts) = true.
Proof.
  assert (H : thoughts_log three_thoughts !! 2%nat
              = Some (new_entry "2025-01-01T10:00:02"
                        {| arg_thought := "Done"; arg_pattern := Some "analytical";
                           arg_confidence := Some 0.5%float; arg_alternatives := Some [];
                           arg_justification := Some "checked" |} (init "UTC")))
    by reflexivity.
  split; [exact H|].
  exact (proj1 (proj2 (proj2 (proj2 (proj2
           (listing_shows_every_entry three_thoughts 2 _ H))))) 0.5%float eq_refl).
Defined.

Lemma statistics_agree_witness :
  thoughts_log three_thoughts <> [] /\
  exists (d : stats) (index : Z) (entry : thought_entry),
    get_thought_stats three_thoughts = Ok (Json d) /\
    total_thoughts d = Z.of_nat (length (thoughts_log three_thoughts)) /\
    longest_thought_index d = Some index /\
    1 <= index <= total_thoughts d /\
    thoughts_log three_thoughts !! Z.to_nat (index - 1) = Some entry /\
    longest_thought_length d
    = (if len (thought entry) =? 0 then None else Some (len (thought entry))) /\
    0 <= thoughts_with_justification d <= total_thoughts d /\
    0 <= thoughts_with_alternatives d <= total_thoughts d /\
    (forall p n, pattern_distribution d !! p = Some n -> 1 <= n <= total_thoughts d).
Proof.
  assert (H : thoughts_log three_thoughts <> []) by (vm_compute; discriminate).
  split; [exact H | exact (statistics_agree three_thoughts H)].
Defined.

Lemma pattern_counts_add_up_witness :
  thoughts_log a_b_a <> [] /\
  exists d : stats,
    get_thought_stats a_b_a = Ok (Json d) /\
    sum_of_counts (pattern_distribution d)
    = count_entries has_some_pattern (thoughts_log a_b_a) /\
    sum_of_counts (pattern_distribution d) <= total_thoughts d.
Proof.
  assert (H : thoughts_log a_b_a <> []) by (vm_compute; discriminate).
  split; [exact H | exact (pattern_counts_add_up a_b_a H)].
Defined.

(** Start-up and the sentence of the empty log, evaluated: a [TZ] that is
    set wins over zone tables that could not even be read; an empty [TZ]
    gives way to them; without [TZ], a position outside the pair stops the
    start-up; a thought that repeats the sentence of the empty log is listed
    as a thought. *)
Example start_up_samples :
  start_server tokyo = Some (init "Asia/Tokyo") /\
  start_server empty_TZ = Some (init "CEST") /\
  start_server {| TZ := None; tzname := ("PST", "PDT"); daylight := 7 |} = None /\
  get_thoughts looks_empty
  = "Thought #1 (2025-01-01T10:00:00 UTC):" +:+ nl +:+
    "No thoughts have been recorded yet." +:+ nl.
Proof. repeat split; vm_compute; reflexivity. Qed.

(** ** The longest thought along a session *)

Lemma max_snoc (l : list (Z * Z)) (x b : Z * Z) :
  Py.max l = Ok b -> Py.max (l ++ [x]) = Ok (max_step b x).
Proof.
  destruct l as [|y l]; simpl; [done|]. intros [= <-].
  by rewrite fold_left_app.
Qed.

Lemma scores_snoc (log : list thought_entry) (entry : thought_entry) :
  map (fun ie : Z * thought_entry => (len (thought ie.2), ie.1))
      (enumerate 0 (log ++ [entry]))
  = map (fun ie : Z * thought_entry => (len (thought ie.2), ie.1)) (enumerate 0 log)
    ++ [score (length log) entry].
Proof. by rewrite enumerate_app, map_app. Qed.

Lemma new_entry_thought (now : string) (a : think_args) (self : ThinkToolServer) :
  thought (new_entry now a self) = arg_thought a.
Proof.
  unfold new_entry.
  by destruct (arg_pattern a), (arg_confidence a), (arg_alternatives a),
    (arg_justification a).
Qed.

(** X12.  How [think] moves the longest thought: on a log that is not
    empty, a new thought at least as long as the longest one so far becomes
    the longest (its index is the new number of entries), and a shorter one
    leaves [longest_thought_index] as it was. *)
Theorem think_moves_longest_thought
    (now : string) (a : think_args) (self : ThinkToolServer) :
  thoughts_log self <> [] ->
  exists (d d' : stats) (index : Z) (entry : thought_entry),
    get_thought_stats self = Ok (Json d) /\
    get_thought_stats (think now a self).2 = Ok (Json d') /\
    longest_thought_index d = Some index /\
    thoughts_log self !! Z.to_nat (index - 1) = Some entry /\
    total_thoughts d' = total_thoughts d + 1 /\
    longest_thought_index d' =
      Some (if len (arg_thought a) >=? len (thought entry)
            then total_thoughts d' else index).
Proof.
  intros Hne.
  destruct (get_thought_stats_nonempty self Hne) as (best & Hmax & Hstats).
  destruct (max_upper _ _ Hmax) as (Hin & _).
  destruct (scores_elem _ _ Hin) as (i & entry & Hi & ->).
  pose proof (lookup_lt_Some _ _ _ Hi) as Hlt.
  destruct (get_thought_stats_nonempty (think now a self).2) as (best' & Hmax' & Hstats').
  { simpl. by destruct (thoughts_log self). }
  simpl thoughts_log in Hmax'. rewrite scores_snoc in Hmax'.
  rewrite (max_snoc _ _ _ Hmax) in Hmax'. injection Hmax' as <-.
  eexists _, _, (Z.of_nat i + 1), entry.
  split; [exact Hstats|]. split; [exact Hstats'|].
  cbn [total_thoughts longest_thought_index].
  split.
  { unfold score. simpl. destruct (Z.geb_spec (Z.of_nat i) 0); [done | lia]. }
  split.
  { replace (Z.to_nat (Z.of_nat i + 1 - 1)) with i by lia. exact Hi. }
  split.
  { simpl thoughts_log. rewrite length_app. simpl. lia. }
  simpl thoughts_log. rewrite length_app. simpl length.
  unfold max_step, tuple_gt, score. cbn [fst snd].
  rewrite new_entry_thought.
  destruct (Z.geb_spec (len (arg_thought a)) (len (thought entry))) as [Hge|Hlt'].
  - destruct (Z.eqb_spec (len (arg_thought a)) (len (thought entry))) as [Heq|Hneq].
    + destruct (Z.gtb_spec (Z.of_nat (length (thoughts_log self))) (Z.of_nat i)); [|lia].
      cbn [snd]. destruct (Z.geb_spec (Z.of_nat (length (thoughts_log self))) 0); [|lia].
      f_equal. lia.
    + destruct (Z.gtb_spec (len (arg_thought a)) (len (thought entry))); [|lia].
      cbn [snd]. destruct (Z.geb_spec (Z.of_nat (length (thoughts_log self))) 0); [|lia].
      f_equal. lia.
  - destruct (Z.eqb_spec (len (arg_thought a)) (len (thought entry))) as [Heq|Hneq]; [lia|].
    destruct (Z.gtb_spec (len (arg_thought a)) (len (thought entry))); [lia|].
    cbn [snd]. destruct (Z.geb_spec (Z.of_nat i) 0); [done | lia].
Qed.

Lemma think_moves_longest_thought_witness :
  thoughts_log two_fives <> [] /\
  exists (d d' : stats) (index : Z) (entry : thought_entry),
    get_thought_stats two_fives = Ok (Json d) /\
    get_thought_stats (think "2025-01-01T10:00:02" (just "gamma") two_fives).2
    = Ok (Json d') /\
    longest_thought_index d = Some index /\
    thoughts_log two_fives !! Z.to_nat (index - 1) = Some entry /\
    total_thoughts d' = total_thoughts d + 1 /\
    longest_thought_index d' =
      Some (if len (arg_thought (just "gamma")) >=? len (thought entry)
            then total_thoughts d' else index).
Proof.
  assert (H : thoughts_log two_fives <> []) by (vm_compute; discriminate).
  split; [exact H|].
  exact (think_moves_longest_thought "2025-01-01T10:00:02" (just "gamma") two_fives H).
Defined.
